(** * refresh_extract.py: sign in, resolve names to ids, run an extract refresh

    A shallow embedding of [src/refresh_extract.py] and the properties that
    the specification states about it.

    Conventions of the embedding:
    - a Python [str] is the list of its code points ([list N]); a string
      literal of the source is written [lit "..."];
    - a value that may be [None] (the result of [Element.get], of
      [Element.find], of [Element.text]) is an [option];
    - an exception is an [Exn]; a computation that may raise is an
      [Outcome]; a computation that also talks to the server or to the XML
      parser runs in the monad [M], which threads the log of these calls and
      keeps it when an exception is raised;
    - what the script imports is a field of [Env]: the constant [VERSION]
      of the module [version], the server behind [requests], and the library
      functions [ET.fromstring], [ET.tostring] and [int];
    - the script runs under Python 2.7.9 or later, and the interpreter is a
      field of [Env] too: [/] between two [int]s is floor division under
      Python 2 and true division, the correctly rounded binary64 quotient,
      under Python 3; floats are computed exactly, on integers. *)

From stdpp Require Import base option list gmap strings numbers pretty.

#[local] Set Warnings "-register-all".
#[local] Open Scope N_scope.

(** ** Python strings *)

Definition str := list N.

Fixpoint lit (s : string) : str :=
  match s with
  | EmptyString => []
  | String a s' => Ascii.N_of_ascii a :: lit s'
  end.

(** [str(v)] as used by [str.format] on a value that may be [None]. *)
Definition py_str (v : option str) : str :=
  match v with
  | Some s => s
  | None => lit "None"
  end.

(** A character that the [ascii] codec can encode. *)
Definition is_ascii (c : N) : bool := c <? 128.

(** ** The codecs behind [_encode_for_display] *)

Definition hex_digit (d : N) : N :=
  if d <? 10 then 48 + d else 87 + d.

(** [width] lower-case hexadecimal digits of [c], most significant first
    (the [%02x], [%04x] and [%08x] of the error handler). *)
Fixpoint hex_fixed (width : nat) (c : N) : list N :=
  match width with
  | O => []
  | S w => hex_fixed w (c / 16) ++ [hex_digit (c mod 16)]
  end.

(** The [backslashreplace] error handler on one character that the codec
    cannot encode. *)
Definition backslashreplace (c : N) : list N :=
  if c <? 256 then lit "\x" ++ hex_fixed 2 c
  else if c <? 65536 then lit "\u" ++ hex_fixed 4 c
  else lit "\U" ++ hex_fixed 8 c.

(** [text.encode('ascii', errors="backslashreplace")]: the bytes, as
    numbers. *)
Fixpoint encode_ascii_backslashreplace (text : str) : list N :=
  match text with
  | [] => []
  | c :: rest =>
      (if is_ascii c then [c] else backslashreplace c)
        ++ encode_ascii_backslashreplace rest
  end.

(** The payload of a UTF-8 continuation byte. *)
Definition continuation (b : N) : option N :=
  if (128 <=? b) && (b <? 192) then Some (b - 128) else None.

(** [bytes.decode('utf-8')]; [None] stands for [UnicodeDecodeError]. *)
Fixpoint decode_utf8 (bs : list N) : option str :=
  match bs with
  | [] => Some []
  | b0 :: t0 =>
      if b0 <? 128 then cons b0 <$> decode_utf8 t0
      else if (194 <=? b0) && (b0 <? 224) then
        match t0 with
        | b1 :: t1 =>
            c1 ← continuation b1;
            cons ((b0 - 192) * 64 + c1) <$> decode_utf8 t1
        | _ => None
        end
      else if (224 <=? b0) && (b0 <? 240) then
        match t0 with
        | b1 :: b2 :: t2 =>
            c1 ← continuation b1;
            c2 ← continuation b2;
            let cp := (b0 - 224) * 4096 + c1 * 64 + c2 in
            if (2048 <=? cp) && negb ((55296 <=? cp) && (cp <? 57344))
            then cons cp <$> decode_utf8 t2
            else None
        | _ => None
        end
      else if (240 <=? b0) && (b0 <? 245) then
        match t0 with
        | b1 :: b2 :: b3 :: t3 =>
            c1 ← continuation b1;
            c2 ← continuation b2;
            c3 ← continuation b3;
            let cp := (b0 - 240) * 262144 + c1 * 4096 + c2 * 64 + c3 in
            if (65536 <=? cp) && (cp <? 1114112)
            then cons cp <$> decode_utf8 t3
            else None
        | _ => None
        end
      else None
  end.

(** ** Escapes, as the specification reads them *)

(** A code point of Unicode: what a character of a Python [str] is. *)
Definition is_code_point (c : N) : bool := c <? 1114112.

(** The value of a lower-case hexadecimal digit. *)
Definition hex_digit_value (d : N) : option N :=
  if (48 <=? d) && (d <? 58) then Some (d - 48)
  else if (97 <=? d) && (d <? 103) then Some (d - 87)
  else None.

(** The number that a list of hexadecimal digits denotes after [acc]. *)
Fixpoint hex_value_from (acc : N) (digits : list N) : option N :=
  match digits with
  | [] => Some acc
  | d :: rest => x ← hex_digit_value d; hex_value_from (16 * acc + x) rest
  end.

Definition hex_value (digits : list N) : option N := hex_value_from 0 digits.

(** [piece] is the escape of the character [c]: a backslash, then [x] and
    two hexadecimal digits for a character below 256, [u] and four for one
    below 65536, [U] and eight for the others; the digits denote [c]. *)
Definition is_escape (c : N) (piece : list N) : bool :=
  match piece with
  | b :: kind :: digits =>
      (b =? 92)
      && bool_decide (hex_value digits = Some c)
      && (if c <? 256 then (kind =? 120) && bool_decide (length digits = 2%nat)
          else if c <? 65536
               then (kind =? 117) && bool_decide (length digits = 4%nat)
               else (kind =? 85) && bool_decide (length digits = 8%nat))
  | _ => false
  end.

(** [out] is [text] with every ASCII character kept and every other
    character replaced by its escape. *)
Definition sanitizes (text out : str) : Prop :=
  ∃ pieces : list (list N),
    out = concat pieces
    ∧ Forall2 (λ c piece, if is_ascii c then piece = [c]
                          else is_escape c piece = true) text pieces.

(** ** Exceptions and outcomes *)

Inductive Exn : Type :=
| ApiCallError (msg : str)
| LookupError (msg : str)
| AttributeError        (* an attribute of [None] was asked for *)
| TypeError             (* [int(None)] *)
| ValueError            (* [int] of a text that is no numeral *)
| ZeroDivisionError
| OverflowError         (* a quotient too large for a float *)
| UnicodeDecodeError
| ParseError            (* [ET.fromstring] on a malformed document *)
| RequestException.     (* [requests]: no response was obtained *)

Inductive Outcome (A : Type) : Type :=
| Return (a : A)
| Raise (e : Exn).

Arguments Return {A} a.
Arguments Raise {A} e.

#[export] Instance outcome_ret : MRet Outcome := @Return.

#[export] Instance outcome_bind : MBind Outcome := λ A B f c,
  match c with
  | Return a => f a
  | Raise e => Raise e
  end.

(** Calling a method on a value that may be [None]. *)
Definition deref {A : Type} (v : option A) : Outcome A :=
  match v with
  | Some a => Return a
  | None => Raise AttributeError
  end.

(** [_encode_for_display(text)] *)
Definition _encode_for_display (text : str) : Outcome str :=
  match decode_utf8 (encode_ascii_backslashreplace text) with
  | Some s => Return s
  | None => Raise UnicodeDecodeError
  end.

(** ** [xml.etree.ElementTree] *)

(** The namespace map [xmlns] of the script, and the tag that the prefixed
    name [t:name] stands for under it. *)
Definition xmlns_t : str := lit "http://tableau.com/api".

Definition t (name : str) : str := lit "{" ++ xmlns_t ++ lit "}" ++ name.

Module ET.

Inductive Element : Type :=
| Elem (tag : str) (attrib : gmap str str) (text : option str)
       (children : list Element).

Definition tag (e : Element) : str :=
  match e with Elem tg _ _ _ => tg end.

Definition attrib (e : Element) : gmap str str :=
  match e with Elem _ a _ _ => a end.

Definition text (e : Element) : option str :=
  match e with Elem _ _ x _ => x end.

Definition children (e : Element) : list Element :=
  match e with Elem _ _ _ cs => cs end.

(** [e.get(key)] *)
Definition get (e : Element) (key : string) : option str :=
  attrib e !! lit key.

(** [e.iter()]: the element and everything below it, in document
    order. *)
Fixpoint iter (e : Element) : list Element :=
  match e with
  | Elem _ _ _ cs => e :: flat_map iter cs
  end.

(** The two shapes of path the script uses: ['t:name'] looks among the
    children, ['.//t:name'] among all the elements below.  The name is
    taken as a plain tag name. *)
Inductive Path : Type :=
| Child (name : str)
| Below (name : str).

Definition has_tag (tg : str) (e : Element) : bool :=
  bool_decide (tag e = tg).

(** [e.findall(path, namespaces=xmlns)] *)
Definition findall (p : Path) (e : Element) : list Element :=
  match p with
  | Child name => List.filter (has_tag (t name)) (children e)
  | Below name => List.filter (has_tag (t name)) (flat_map iter (children e))
  end.

(** [e.find(path, namespaces=xmlns)]: the first one, or [None]. *)
Definition find (p : Path) (e : Element) : option Element :=
  head (findall p e).

End ET.

(** ** Numbers: [int / int] and [math.ceil] *)

#[local] Open Scope Z_scope.

(** A finite binary64 value, [mantissa * 2 ^ exponent]. *)
Record float : Type := Float { mantissa : Z; exponent : Z }.

(** The integer nearest to [n / d] for [0 <= n] and [0 < d], ties to
    even. *)
Definition round_half_even (n d : Z) : Z :=
  let q := n / d in
  let r := n mod d in
  if 2 * r <? d then q
  else if d <? 2 * r then q + 1
  else if Z.even q then q else q + 1.

(** [a < b * 2 ^ k], for any sign of [k]. *)
Definition below_scaled (a b k : Z) : bool :=
  if 0 <=? k then a <? b * 2 ^ k else a * 2 ^ (- k) <? b.

(** The binary exponent of the quotient of two positive integers:
    [2 ^ s <= a / b < 2 ^ (s + 1)]. *)
Definition quotient_log2 (a b : Z) : Z :=
  let s := Z.log2 a - Z.log2 b in
  if below_scaled a b s then s - 1 else s.

(** The quotient of two positive integers rounded to 53 significant bits
    (fewer below [2 ^ -1022]), as a mantissa and an exponent. *)
Definition round_quotient (a b : Z) : Z * Z :=
  let e := Z.max (quotient_log2 a b - 52) (-1074) in
  let m := if 0 <=? e then round_half_even a (b * 2 ^ e)
           else round_half_even (a * 2 ^ (- e)) b in
  (m, e).

(** True division of two [int]s: [a / b] under Python 3, and [float(a)]
    for [b = 1]. *)
Definition truediv (a b : Z) : Outcome float :=
  if b =? 0 then Raise ZeroDivisionError
  else if a =? 0 then Return (Float 0 0)
  else
    let '(m, e) := round_quotient (Z.abs a) (Z.abs b) in
    if 0 <=? e
    then
      if 2 ^ 1024 <=? m * 2 ^ e then Raise OverflowError
      else Return (Float (Z.sgn a * Z.sgn b * m) e)
    else Return (Float (Z.sgn a * Z.sgn b * m) e).

(** The ceiling of a float, as an integer. *)
Definition math_ceil (x : float) : Z :=
  if 0 <=? exponent x then mantissa x * 2 ^ exponent x
  else - ((- mantissa x) / 2 ^ (- exponent x)).

(** The interpreter: the header of the script asks for Python 2.7.9 or
    later, and the script looks at [sys.version] to run under Python 3. *)
Inductive Python : Type := Python2 | Python3.

(** What [a / b] gives on two [int]s: an [int] or a [float]. *)
Inductive number : Type :=
| Int (n : Z)
| Flt (x : float).

(** [a / b] on two [int]s: the floor of the quotient under Python 2 (the
    script has no [from __future__ import division]), the rounded quotient
    under Python 3. *)
Definition div (py : Python) (a b : Z) : Outcome number :=
  match py with
  | Python2 => if b =? 0 then Raise ZeroDivisionError else Return (Int (a / b))
  | Python3 => x ← truediv a b; mret (Flt x)
  end.

(** [int(math.ceil(x))]: [math.ceil] turns an [int] into a [float]
    first. *)
Definition int_ceil (x : number) : Outcome Z :=
  match x with
  | Flt f => Return (math_ceil f)
  | Int n => f ← truediv n 1; mret (math_ceil f)
  end.

(** [str(n)] of an [int], as [str.format] prints it. *)
Definition str_of_int (n : Z) : str := lit (pretty n).

(** [template.format(args...)] for templates whose fields are [{0}] to
    [{9}]; the arguments are already strings. *)
Fixpoint format (template : str) (args : list str) : str :=
  match template with
  | [] => []
  | c :: rest =>
      match rest with
      | d :: c' :: rest' =>
          if ((c =? 123) && (c' =? 125))%N
          then default [] (args !! N.to_nat (d - 48)) ++ format rest' args
          else c :: format rest args
      | _ => c :: format rest args
      end
  end.

(** ** The world outside the script *)

Inductive Method : Type := GET | POST.

#[export] Instance Method_eq_dec : EqDecision Method.
Proof. solve_decision. Defined.

Record Request : Type := {
  method : Method;
  url : str;
  headers : gmap str (option str);
  data : option (list N)
}.

Record Response : Type := {
  status_code : Z;
  text : str
}.

(** The interpreter and what the script imports.  [VERSION] is the constant of the module
    [version], which is not among the sources.  [http] is the server as
    [requests] reaches it: it answers a request knowing the requests made
    before it; no answer means that [requests] raised.  [fromstring],
    [tostring] and [int_of_str] are [ET.fromstring] ([None] for
    [ParseError]), [ET.tostring] and [int] on a string ([None] for
    [ValueError]). *)
Record Env : Type := {
  python : Python;
  VERSION : str;
  http : list Request → Request → option Response;
  fromstring : str → option ET.Element;
  tostring : ET.Element → list N;
  int_of_str : str → option Z
}.

(** A call that leaves the script. *)
Inductive Event : Type :=
| Sent (r : Request)
| Parsed (doc : str).

Definition requests_of (log : list Event) : list Request :=
  omap (λ ev, match ev with Sent r => Some r | Parsed _ => None end) log.

Definition documents_of (log : list Event) : list str :=
  omap (λ ev, match ev with Parsed d => Some d | Sent _ => None end) log.

(** Computations: the log so far in, the log and an outcome out. *)
Definition M (A : Type) : Type := list Event → list Event * Outcome A.

#[export] Instance M_ret : MRet M := λ A a log, (log, Return a).

#[export] Instance M_bind : MBind M := λ A B f c log,
  match c log with
  | (log', Return a) => f a log'
  | (log', Raise e) => (log', Raise e)
  end.

Definition lift {A : Type} (o : Outcome A) : M A := λ log, (log, o).

Definition raise {A : Type} (e : Exn) : M A := lift (Raise e).

(** Runs a computation from the empty log. *)
Definition run {A : Type} (c : M A) : list Event * Outcome A := c [].

(** ** The script *)

Section script.

Context (env : Env).

(** [requests.get] and [requests.post]: the request is logged and the
    server answers it. *)
Definition send (r : Request) : M Response := λ log,
  (log ++ [Sent r],
   match http env (requests_of log) r with
   | Some response => Return response
   | None => Raise RequestException
   end).

Definition requests_get (url : str) (headers : gmap str (option str))
  : M Response :=
  send {| method := GET; url := url; headers := headers; data := None |}.

Definition requests_post (url : str) (data : option (list N))
    (headers : gmap str (option str)) : M Response :=
  send {| method := POST; url := url; headers := headers; data := data |}.

(** [ET.fromstring(doc)]: the document handed to the parser is logged. *)
Definition ET_fromstring (doc : str) : M ET.Element := λ log,
  (log ++ [Parsed doc],
   match fromstring env doc with
   | Some xml => Return xml
   | None => Raise ParseError
   end).

(** The header [{'x-tableau-auth': auth_token}]. *)
Definition x_tableau_auth (auth_token : option str) : gmap str (option str) :=
  {[ lit "x-tableau-auth" := auth_token ]}.

Definition _check_status (server_response : Response) (success_code : Z)
  : M unit :=
  if bool_decide (status_code server_response ≠ success_code) then
    parsed_response ← ET_fromstring (text server_response);
    let error_element := ET.find (ET.Child (lit "error")) parsed_response in
    let summary_element := ET.find (ET.Below (lit "summary")) parsed_response in
    let detail_element := ET.find (ET.Below (lit "detail")) parsed_response in
    let code :=
      match error_element with
      | Some e => default (lit "unknown") (ET.get e "code")
      | None => lit "unknown code"
      end in
    let summary :=
      match summary_element with
      | Some e => py_str (ET.text e)
      | None => lit "unknown summary"
      end in
    let detail :=
      match detail_element with
      | Some e => py_str (ET.text e)
      | None => lit "unknown detail"
      end in
    let error_message := format (lit "{0}: {1} - {2}") [code; summary; detail] in
    raise (ApiCallError error_message)
  else mret ().

(** The request document of [sign_in], before [ET.tostring]. *)
Definition sign_in_request (username password site : str) : ET.Element :=
  ET.Elem (lit "tsRequest") ∅ None
    [ET.Elem (lit "credentials")
       (<[lit "name" := username]> {[ lit "password" := password ]}) None
       [ET.Elem (lit "site") {[ lit "contentUrl" := site ]} None []]].

Definition sign_in (server username password site : str)
  : M (option str * option str * option str) :=
  let url := server ++ format (lit "/api/{0}/auth/signin") [VERSION env] in
  let xml_request := tostring env (sign_in_request username password site) in
  server_response ← requests_post url (Some xml_request) ∅;
  _check_status server_response 200;;
  server_response ← lift (_encode_for_display (text server_response));
  parsed_response ← ET_fromstring server_response;
  credentials ← lift (deref (ET.find (ET.Child (lit "credentials")) parsed_response));
  let token := ET.get credentials "token" in
  site_element ← lift (deref (ET.find (ET.Below (lit "site")) parsed_response));
  let site_id := ET.get site_element "id" in
  user ← lift (deref (ET.find (ET.Below (lit "user")) parsed_response));
  let user_id := ET.get user "id" in
  mret (token, site_id, user_id).

Definition sign_out (server : str) (auth_token : option str) : M unit :=
  let url := server ++ format (lit "/api/{0}/auth/signout") [VERSION env] in
  server_response ← requests_post url None (x_tableau_auth auth_token);
  _check_status server_response 204.

(** The [for workbook in workbooks] loop of [get_workbook_id], with the
    [raise] that follows it. *)
Fixpoint get_workbook_id_for (project_id : option str) (workbook_name : str)
    (workbooks : list ET.Element) : Outcome (option str) :=
  match workbooks with
  | [] =>
      Raise (LookupError
               (format (lit "Workbook named '{0}' not found.") [workbook_name]))
  | workbook :: rest =>
      if bool_decide (ET.get workbook "name" = Some workbook_name) then
        project ← deref (ET.find (ET.Below (lit "project")) workbook);
        let source_project_id := ET.get project "id" in
        if bool_decide (source_project_id = project_id)
        then Return (ET.get workbook "id")
        else get_workbook_id_for project_id workbook_name rest
      else get_workbook_id_for project_id workbook_name rest
  end.

Definition get_workbook_id (server : str) (auth_token user_id site_id
    project_id : option str) (workbook_name : str) : M (option str) :=
  let url := server ++ format (lit "/api/{0}/sites/{1}/users/{2}/workbooks")
                         [VERSION env; py_str site_id; py_str user_id] in
  server_response ← requests_get url (x_tableau_auth auth_token);
  _check_status server_response 200;;
  doc ← lift (_encode_for_display (text server_response));
  xml_response ← ET_fromstring doc;
  let workbooks := ET.findall (ET.Below (lit "workbook")) xml_response in
  lift (get_workbook_id_for project_id workbook_name workbooks).

Fixpoint get_datasource_id_for (project_id : option str)
    (datasource_name : str) (datasources : list ET.Element)
  : Outcome (option str) :=
  match datasources with
  | [] =>
      Raise (LookupError
               (format (lit "Datasource named '{0}' not found.") [datasource_name]))
  | datasource :: rest =>
      if bool_decide (ET.get datasource "name" = Some datasource_name) then
        project ← deref (ET.find (ET.Below (lit "project")) datasource);
        let source_project_id := ET.get project "id" in
        if bool_decide (source_project_id = project_id)
        then Return (ET.get datasource "id")
        else get_datasource_id_for project_id datasource_name rest
      else get_datasource_id_for project_id datasource_name rest
  end.

Definition get_datasource_id (server : str) (auth_token site_id
    project_id : option str) (datasource_name : str) : M (option str) :=
  let url := server ++ format (lit "/api/{0}/sites/{1}/datasources")
                         [VERSION env; py_str site_id] in
  server_response ← requests_get url (x_tableau_auth auth_token);
  _check_status server_response 200;;
  doc ← lift (_encode_for_display (text server_response));
  xml_response ← ET_fromstring doc;
  let datasources := ET.findall (ET.Below (lit "datasource")) xml_response in
  lift (get_datasource_id_for project_id datasource_name datasources).

(** The URL of one page of the project listing. *)
Definition paged_url (url : str) (page_size page_num : Z) : str :=
  url ++ format (lit "?pageSize={0}&pageNumber={1}")
           [str_of_int page_size; str_of_int page_num].

(** The [for page in range(2, max_page + 1)] loop of [get_project_id]:
    [projects] grows by the projects of every page fetched. *)
Fixpoint get_project_id_pages (url : str) (auth_token : option str)
    (page_size : Z) (pages : list Z) (projects : list ET.Element)
  : M (list ET.Element) :=
  match pages with
  | [] => mret projects
  | page :: rest =>
      server_response ← requests_get (paged_url url page_size page)
                          (x_tableau_auth auth_token);
      _check_status server_response 200;;
      doc ← lift (_encode_for_display (text server_response));
      xml_response ← ET_fromstring doc;
      get_project_id_pages url auth_token page_size rest
        (projects ++ ET.findall (ET.Below (lit "project")) xml_response)
  end.

(** The [for project in projects] loop, with the [raise] after it. *)
Fixpoint get_project_id_for (dest_project : str) (projects : list ET.Element)
  : Outcome (option str) :=
  match projects with
  | [] =>
      Raise (LookupError
               (format (lit "Project named '{0}' was not found on server")
                  [dest_project]))
  | project :: rest =>
      if bool_decide (ET.get project "name" = Some dest_project)
      then Return (ET.get project "id")
      else get_project_id_for dest_project rest
  end.

(** [int(v)] on the result of [Element.get]. *)
Definition int (v : option str) : Outcome Z :=
  match v with
  | None => Raise TypeError
  | Some s =>
      match int_of_str env s with
      | Some n => Return n
      | None => Raise ValueError
      end
  end.

(** [int(math.ceil(total_projects / page_size))] *)
Definition max_page_of (py : Python) (total_projects page_size : Z)
  : Outcome Z :=
  q ← div py total_projects page_size;
  int_ceil q.

Definition get_project_id (server : str) (auth_token site_id : option str)
    (dest_project : str) : M (option str) :=
  let '(page_num, page_size) := (1, 100) in
  let url := server ++ format (lit "/api/{0}/sites/{1}/projects")
                         [VERSION env; py_str site_id] in
  server_response ← requests_get (paged_url url page_size page_num)
                      (x_tableau_auth auth_token);
  _check_status server_response 200;;
  doc ← lift (_encode_for_display (text server_response));
  xml_response ← ET_fromstring doc;
  pagination ← lift (deref (ET.find (ET.Child (lit "pagination")) xml_response));
  total_projects ← lift (int (ET.get pagination "totalAvailable"));
  max_page ← lift (max_page_of (python env) total_projects page_size);
  let projects := ET.findall (ET.Below (lit "project")) xml_response in
  projects ← get_project_id_pages url auth_token page_size
               (seqZ 2 (max_page + 1 - 2)) projects;
  lift (get_project_id_for dest_project projects).

Fixpoint get_schedule_id_for (schedule_name : str) (schedules : list ET.Element)
  : Outcome (option str) :=
  match schedules with
  | [] =>
      Raise (LookupError
               (format (lit "Schedule named '{0}' not found.") [schedule_name]))
  | schedule :: rest =>
      if bool_decide (ET.get schedule "name" = Some schedule_name)
      then Return (ET.get schedule "id")
      else get_schedule_id_for schedule_name rest
  end.

Definition get_schedule_id (server : str) (auth_token : option str)
    (schedule_name : str) : M (option str) :=
  let url := server ++ format (lit "/api/{0}/schedules") [VERSION env] in
  server_response ← requests_get url (x_tableau_auth auth_token);
  _check_status server_response 200;;
  doc ← lift (_encode_for_display (text server_response));
  xml_response ← ET_fromstring doc;
  let schedules := ET.findall (ET.Below (lit "schedule")) xml_response in
  lift (get_schedule_id_for schedule_name schedules).

(** The [for task in tasks] loop of [get_extract_refresh_id], with the
    [raise] after it.  The condition is evaluated left to right and stops
    at the first conjunct that is false. *)
Fixpoint get_extract_refresh_id_for (schedule_id : option str)
    (object_type : str) (object_id : option str) (tasks : list ET.Element)
  : Outcome (option str) :=
  match tasks with
  | [] =>
      Raise (LookupError
               (format (lit "Extract with schedule_id '{0}' and object_id '{1}' not found.")
                  [py_str schedule_id; py_str object_id]))
  | task :: rest =>
      let schedule := ET.find (ET.Below (lit "schedule")) task in
      let obj := ET.find (ET.Below object_type) task in
      let extractRefresh := ET.find (ET.Below (lit "extractRefresh")) task in
      match obj with
      | None => get_extract_refresh_id_for schedule_id object_type object_id rest
      | Some o =>
          s ← deref schedule;
          if bool_decide (ET.get s "id" = schedule_id) then
            if bool_decide (ET.get o "id" = object_id) then
              er ← deref extractRefresh;
              Return (ET.get er "id")
            else get_extract_refresh_id_for schedule_id object_type object_id rest
          else get_extract_refresh_id_for schedule_id object_type object_id rest
      end
  end.

Definition get_extract_refresh_id (server : str) (auth_token site_id
    schedule_id : option str) (object_type : str) (object_id : option str)
  : M (option str) :=
  let url := server ++ format (lit "/api/{0}/sites/{1}/tasks/extractRefreshes")
                         [VERSION env; py_str site_id] in
  server_response ← requests_get url (x_tableau_auth auth_token);
  _check_status server_response 200;;
  doc ← lift (_encode_for_display (text server_response));
  xml_response ← ET_fromstring doc;
  let tasks := ET.findall (ET.Below (lit "task")) xml_response in
  lift (get_extract_refresh_id_for schedule_id object_type object_id tasks).

Definition run_extract_refresh_task (server : str) (auth_token site_id
    extract_refresh_id : option str) : M (option str) :=
  let url := server ++ format (lit "/api/{0}/sites/{1}/tasks/extractRefreshes/{2}/runNow")
                         [VERSION env; py_str site_id; py_str extract_refresh_id] in
  let xml_request := tostring env (ET.Elem (lit "tsRequest") ∅ None []) in
  server_response ← requests_post url (Some xml_request) (x_tableau_auth auth_token);
  _check_status server_response 200;;
  server_response ← lift (_encode_for_display (text server_response));
  parsed_response ← ET_fromstring server_response;
  job ← lift (deref (ET.find (ET.Below (lit "job")) parsed_response));
  mret (ET.get job "id").

(** The command line of [main]: the eight arguments, or the defaults. *)
Record Args : Type := {
  arg_server : str;
  arg_server_username : str;
  arg_password : str;
  arg_site : str;
  arg_project_name : str;
  arg_object_type : str;
  arg_object_name : str;
  arg_schedule_name : str
}.

Definition main_args (argv : list str) : Args :=
  match argv with
  | [_; a1; a2; a3; a4; a5; a6; a7; a8] =>
      {| arg_server := a1; arg_server_username := a2; arg_password := a3;
         arg_site := a4; arg_project_name := a5; arg_object_type := a6;
         arg_object_name := a7; arg_schedule_name := a8 |}
  | _ =>
      {| arg_server := lit "http://localhost";
         arg_server_username := lit "admin";
         arg_password := lit "admin";
         arg_site := lit "";
         arg_project_name := lit "Default";
         arg_object_type := lit "workbook";
         arg_object_name := lit "Book1";
         arg_schedule_name := lit "End of the month" |}
  end.

(** Steps 2 and 3 of [main]: everything between [sign_in] and
    [sign_out]. *)
Definition main_steps (a : Args) (auth_token site_id user_id : option str)
  : M (option str) :=
  let server := arg_server a in
  project_id ← get_project_id server auth_token site_id (arg_project_name a);
  object_id ←
    (if bool_decide (arg_object_type a = lit "datasource")
     then get_datasource_id server auth_token site_id project_id
            (arg_object_name a)
     else get_workbook_id server auth_token user_id site_id project_id
            (arg_object_name a));
  schedule_id ← get_schedule_id server auth_token (arg_schedule_name a);
  extract_refresh_id ←
    get_extract_refresh_id server auth_token site_id schedule_id
      (arg_object_type a) object_id;
  run_extract_refresh_task server auth_token site_id extract_refresh_id.

(** [main()], on the command line [sys.argv]; what it prints is left
    out. *)
Definition main (argv : list str) : M unit :=
  let a := main_args argv in
  '(auth_token, site_id, user_id) ←
    sign_in (arg_server a) (arg_server_username a) (arg_password a)
      (arg_site a);
  job_id ← main_steps a auth_token site_id user_id;
  sign_out (arg_server a) auth_token.

End script.

#[local] Open Scope Z_scope.

(** Literals and lookups are kept folded when a goal is simplified. *)
Arguments lit _ : simpl never.
Arguments format _ _ : simpl never.
Arguments str_of_int _ : simpl never.
Arguments ET.get _ _ : simpl never.
Arguments ET.find _ _ : simpl never.
Arguments ET.findall _ _ : simpl never.

(** ** Vocabulary of the specification *)

(** [ceil(a / b)] for [0 < b], on integers. *)
Definition ceil_div (a b : Z) : Z := - ((- a) / b).

(** The requests of the interface table, for a server address and a
    session. *)
Definition api (env : Env) (server : str) (path : str) : str :=
  server ++ lit "/api/" ++ VERSION env ++ path.

Definition sign_in_call (env : Env) (server username password site : str)
  : Request :=
  {| method := POST;
     url := api env server (lit "/auth/signin");
     headers := ∅;
     data := Some (tostring env (sign_in_request username password site)) |}.

Definition sign_out_call (env : Env) (server : str) (auth_token : option str)
  : Request :=
  {| method := POST;
     url := api env server (lit "/auth/signout");
     headers := x_tableau_auth auth_token;
     data := None |}.

Definition listing_call (url : str) (auth_token : option str) : Request :=
  {| method := GET; url := url; headers := x_tableau_auth auth_token;
     data := None |}.

Definition projects_call (env : Env) (server : str) (auth_token site_id : option str)
    (page : Z) : Request :=
  listing_call
    (api env server (lit "/sites/" ++ py_str site_id ++ lit "/projects")
       ++ lit "?pageSize=100&pageNumber=" ++ str_of_int page)
    auth_token.

Definition workbooks_call (env : Env) (server : str)
    (auth_token user_id site_id : option str) : Request :=
  listing_call
    (api env server (lit "/sites/" ++ py_str site_id ++ lit "/users/"
                       ++ py_str user_id ++ lit "/workbooks"))
    auth_token.

Definition datasources_call (env : Env) (server : str)
    (auth_token site_id : option str) : Request :=
  listing_call
    (api env server (lit "/sites/" ++ py_str site_id ++ lit "/datasources"))
    auth_token.

Definition schedules_call (env : Env) (server : str) (auth_token : option str)
  : Request :=
  listing_call (api env server (lit "/schedules")) auth_token.

Definition tasks_call (env : Env) (server : str) (auth_token site_id : option str)
  : Request :=
  listing_call
    (api env server (lit "/sites/" ++ py_str site_id ++ lit "/tasks/extractRefreshes"))
    auth_token.

(** The text that reaches the parser on the success path. *)
Definition sanitized (response : Response) : str :=
  encode_ascii_backslashreplace (text response).

(** The document of a call that the server answers with the status
    [expected] and a text that, sanitized, parses. *)
Definition answered (env : Env) (history : list Request) (r : Request)
    (expected : Z) : option ET.Element :=
  response ← http env history r;
  if bool_decide (status_code response = expected)
  then fromstring env (sanitized response)
  else None.

(** What such a call adds to the log. *)
Definition exchange (env : Env) (history : list Request) (r : Request)
  : list Event :=
  match http env history r with
  | Some response => [Sent r; Parsed (sanitized response)]
  | None => [Sent r]
  end.

(** Sign-out requests among the requests of a log. *)
Definition is_sign_out (env : Env) (server : str) (r : Request) : bool :=
  bool_decide (method r = POST ∧ url r = api env server (lit "/auth/signout")).

Definition sign_out_calls (env : Env) (server : str) (log : list Event) : nat :=
  length (List.filter (is_sign_out env server) (requests_of log)).

(** The match conditions of the resolvers. *)
Definition has_name (name : str) (e : ET.Element) : bool :=
  bool_decide (ET.get e "name" = Some name).

Definition has_id (id : option str) (e : option ET.Element) : bool :=
  match e with
  | Some x => bool_decide (ET.get x "id" = id)
  | None => false
  end.

(** A workbook or a data source of that name whose nested project has that
    id. *)
Definition in_project (project_id : option str) (name : str) (e : ET.Element)
  : bool :=
  has_name name e && has_id project_id (ET.find (ET.Below (lit "project")) e).

(** A task whose schedule has that id and whose object of that type exists
    and has that id. *)
Definition task_matches (schedule_id : option str) (object_type : str)
    (object_id : option str) (task : ET.Element) : bool :=
  has_id schedule_id (ET.find (ET.Below (lit "schedule")) task)
  && has_id object_id (ET.find (ET.Below object_type) task).

(** The first element of a list that satisfies a condition. *)
Definition first_match {A : Type} (p : A → bool) (l : list A) : option A :=
  head (List.filter p l).

(** An element over which a scan stumbles: it asks an attribute of a child
    that is not there. *)
Definition lacks_project (name : str) (e : ET.Element) : bool :=
  has_name name e
  && bool_decide (ET.find (ET.Below (lit "project")) e = None).

Definition lacks_schedule (object_type : str) (task : ET.Element) : bool :=
  bool_decide (ET.find (ET.Below object_type) task ≠ None)
  && bool_decide (ET.find (ET.Below (lit "schedule")) task = None).

Definition lacks_extract_refresh (schedule_id : option str) (object_type : str)
    (object_id : option str) (task : ET.Element) : bool :=
  task_matches schedule_id object_type object_id task
  && bool_decide (ET.find (ET.Below (lit "extractRefresh")) task = None).

(** The not-found messages. *)
Definition not_found (kind : string) (name : str) : Exn :=
  LookupError (lit kind ++ lit " named '" ++ name ++ lit "' not found.").

Definition project_not_found (name : str) : Exn :=
  LookupError (lit "Project named '" ++ name ++ lit "' was not found on server").

Definition extract_not_found (schedule_id object_id : option str) : Exn :=
  LookupError (lit "Extract with schedule_id '" ++ py_str schedule_id
                 ++ lit "' and object_id '" ++ py_str object_id
                 ++ lit "' not found.").

(** The documents of [n] consecutive pages from [page] on, when the server
    answers each page request with the status 200 and a text that parses,
    knowing the requests made before it. *)
Fixpoint paged (env : Env) (call : Z → Request) (history : list Request)
    (page : Z) (n : nat) : option (list ET.Element) :=
  match n with
  | O => Some []
  | S n' =>
      xml ← answered env history (call page) 200;
      rest ← paged env call (history ++ [call page]) (page + 1) n';
      Some (xml :: rest)
  end.

(** The [totalAvailable] that a page reports. *)
Definition total_available (env : Env) (page : ET.Element) : option Z :=
  pagination ← ET.find (ET.Child (lit "pagination")) page;
  total ← ET.get pagination "totalAvailable";
  int_of_str env total.

(** The pages that the client asks for when the first one reports
    [max_page] pages: the first one in any case. *)
Definition pages_asked (max_page : Z) : list Z := 1 :: seqZ 2 (max_page - 1).


(** ** Vocabulary of the further properties *)

(** The message of an error envelope. *)
Definition envelope_message (xml : ET.Element) : str :=
  match ET.find (ET.Child (lit "error")) xml with
  | Some e => default (lit "unknown") (ET.get e "code")
  | None => lit "unknown code"
  end
  ++ lit ": "
  ++ match ET.find (ET.Below (lit "summary")) xml with
     | Some e => py_str (ET.text e)
     | None => lit "unknown summary"
     end
  ++ lit " - "
  ++ match ET.find (ET.Below (lit "detail")) xml with
     | Some e => py_str (ET.text e)
     | None => lit "unknown detail"
     end.

(** What a response with another status than the expected one raises. *)
Definition status_error (env : Env) (response : Response) : Exn :=
  match fromstring env (text response) with
  | Some xml => ApiCallError (envelope_message xml)
  | None => ParseError
  end.

(** One round trip: the log it leaves and, when the answer has the status
    200 and parses, the document. *)
Definition round_trip (env : Env) (log : list Event) (r : Request)
  : list Event * Outcome ET.Element :=
  match http env (requests_of log) r with
  | None => (log ++ [Sent r], Raise RequestException)
  | Some response =>
      if bool_decide (status_code response = 200) then
        (log ++ [Sent r; Parsed (sanitized response)],
         match fromstring env (sanitized response) with
         | Some xml => Return xml
         | None => Raise ParseError
         end)
      else
        (log ++ [Sent r; Parsed (text response)],
         Raise (status_error env response))
  end.

(** A round trip followed by a scan of the document. *)
Definition after_round_trip {A : Type} (env : Env) (log : list Event)
    (r : Request) (k : ET.Element → Outcome A) : list Event * Outcome A :=
  match round_trip env log r with
  | (log', Return xml) => (log', k xml)
  | (log', Raise e) => (log', Raise e)
  end.

Definition run_now_call (env : Env) (server : str)
    (auth_token site_id extract_refresh_id : option str) : Request :=
  {| method := POST;
     url := api env server
              (lit "/sites/" ++ py_str site_id ++ lit "/tasks/extractRefreshes/"
                 ++ py_str extract_refresh_id ++ lit "/runNow");
     headers := x_tableau_auth auth_token;
     data := Some (tostring env (ET.Elem (lit "tsRequest") ∅ None [])) |}.

(** A computation that only adds to the log, and only requests that
    satisfy [P]. *)
Definition sends_only {A : Type} (P : Request → Prop) (c : M A) : Prop :=
  ∀ log, ∃ added,
    (c log).1 = log ++ added ∧ Forall P (requests_of added).

(** A computation that, when it returns, has handed only ASCII documents to
    the parser. *)
Definition parses_ascii {A : Type} (c : M A) : Prop :=
  ∀ log log' a,
    c log = (log', Return a) →
    ∃ added,
      log' = log ++ added
      ∧ Forall (λ doc, forallb is_ascii doc = true) (documents_of added).

(** A request of a session: it goes to the API of that server and carries
    that token. *)
Definition in_session (env : Env) (server : str) (auth_token : option str)
    (r : Request) : Prop :=
  headers r = x_tableau_auth auth_token ∧ ∃ path, url r = api env server path.

(** The command line that stands for the defaults of [main]. *)
Definition default_argv : list str :=
  [lit "refresh_extract.py"; lit "http://localhost"; lit "admin"; lit "admin";
   lit ""; lit "Default"; lit "workbook"; lit "Book1"; lit "End of the month"].

(** The listing that [main] asks for after the projects. *)
Definition object_call (env : Env) (a : Args)
    (auth_token site_id user_id : option str) : Request :=
  if bool_decide (arg_object_type a = lit "datasource")
  then datasources_call env (arg_server a) auth_token site_id
  else workbooks_call env (arg_server a) auth_token user_id site_id.

(** ** A server to run the script against *)

(** An element of a response: a tag in the namespace of the API,
    attributes, children. *)
Definition el (name : string) (attrs : list (string * str))
    (children : list ET.Element) : ET.Element :=
  ET.Elem (t (lit name)) (list_to_map (prod_map lit id <$> attrs)) None children.

(** An element that holds only text. *)
Definition el_text (name : string) (content : string) : ET.Element :=
  ET.Elem (t (lit name)) ∅ (Some (lit content)) [].

(** A parser that knows the documents of a table. *)
Definition table_fromstring (table : list (str * ET.Element)) (doc : str)
  : option ET.Element :=
  snd <$> head (List.filter (λ entry, bool_decide (entry.1 = doc)) table).

(** A server that answers from a table, whatever came before. *)
Definition table_server (table : list (Method * str * Response))
    (history : list Request) (r : Request) : option Response :=
  snd <$> head (List.filter
                  (λ entry, bool_decide (entry.1 = (method r, url r))) table).

(** [int] on a plain decimal numeral. *)
Fixpoint decimal (acc : Z) (digits : str) : option Z :=
  match digits with
  | [] => Some acc
  | c :: rest =>
      if ((48 <=? c) && (c <=? 57))%N
      then decimal (10 * acc + Z.of_N (c - 48)) rest
      else None
  end.

Definition demo_int (s : str) : option Z :=
  match s with
  | [] => None
  | _ => decimal 0 s
  end.

(** A serializer in the place of [ET.tostring]. *)
Fixpoint demo_tostring (e : ET.Element) : list N :=
  match e with
  | ET.Elem tg attrs txt cs =>
      lit "<" ++ tg
        ++ flat_map (λ kv, lit " " ++ kv.1 ++ lit "=" ++ [34%N] ++ kv.2 ++ [34%N])
             (map_to_list attrs)
        ++ match txt, cs with
           | None, [] => lit " />"
           | _, _ =>
               lit ">" ++ default [] txt ++ flat_map demo_tostring cs
                 ++ lit "</" ++ tg ++ lit ">"
           end
  end.

Definition ok (body : str) : Response := {| status_code := 200; text := body |}.

Definition ts_open : str := lit "<tsResponse xmlns='http://tableau.com/api'>".
Definition ts_close : str := lit "</tsResponse>".

(** Sign-in. *)
Definition signin_text : str :=
  ts_open ++ lit "<credentials token='tok'><site id='s1' contentUrl=''/><user id='u1'/></credentials>" ++ ts_close.

Definition signin_xml : ET.Element :=
  el "tsResponse" []
    [el "credentials" [("token", lit "tok")]
       [el "site" [("id", lit "s1"); ("contentUrl", lit "")] [];
        el "user" [("id", lit "u1")] []]].

(** 250 projects, [N1] to [N250] with the ids [p1] to [p250], on three
    pages. *)
Definition project_ids : list Z := seqZ 1 250.

Definition project_text (i : Z) : str :=
  lit "<project id='p" ++ str_of_int i ++ lit "' name='N" ++ str_of_int i ++ lit "'/>".

Definition project_xml (i : Z) : ET.Element :=
  el "project" [("id", lit "p" ++ str_of_int i); ("name", lit "N" ++ str_of_int i)] [].

Definition page_ids (page : Z) : list Z :=
  take 100 (drop (Z.to_nat (100 * (page - 1))) project_ids).

Definition page_text (page : Z) : str :=
  ts_open ++ lit "<pagination pageNumber='" ++ str_of_int page
    ++ lit "' pageSize='100' totalAvailable='250'/><projects>"
    ++ flat_map project_text (page_ids page)
    ++ lit "</projects>" ++ ts_close.

Definition page_xml (page : Z) : ET.Element :=
  el "tsResponse" []
    [el "pagination" [("pageNumber", str_of_int page); ("pageSize", lit "100");
                      ("totalAvailable", lit "250")] [];
     el "projects" [] (project_xml <$> page_ids page)].

(** Two workbooks of one name, under the projects [p1] and [p205]. *)
Definition workbooks_text : str :=
  ts_open ++ lit "<workbooks><workbook id='w1' name='Book1'><project id='p1'/></workbook><workbook id='w2' name='Book1'><project id='p205'/></workbook></workbooks>" ++ ts_close.

Definition book (id project_id : string) : ET.Element :=
  el "workbook" [("id", lit id); ("name", lit "Book1")]
    [el "project" [("id", lit project_id)] []].

Definition workbooks_xml : ET.Element :=
  el "tsResponse" [] [el "workbooks" [] [book "w1" "p1"; book "w2" "p205"]].

Definition datasources_text : str :=
  ts_open ++ lit "<datasources><datasource id='d1' name='Sales'><project id='p1'/></datasource><datasource id='d2' name='Sales'><project id='p205'/></datasource></datasources>" ++ ts_close.

Definition source (id project_id : string) : ET.Element :=
  el "datasource" [("id", lit id); ("name", lit "Sales")]
    [el "project" [("id", lit project_id)] []].

Definition datasources_xml : ET.Element :=
  el "tsResponse" [] [el "datasources" [] [source "d1" "p1"; source "d2" "p205"]].

Definition schedules_text : str :=
  ts_open ++ lit "<schedules><schedule id='s1' name='Daily'/><schedule id='s2' name='End of the month'/><schedule id='s3' name='End of the month'/></schedules>" ++ ts_close.

Definition schedules_xml : ET.Element :=
  el "tsResponse" []
    [el "schedules" []
       [el "schedule" [("id", lit "s1"); ("name", lit "Daily")] [];
        el "schedule" [("id", lit "s2"); ("name", lit "End of the month")] [];
        el "schedule" [("id", lit "s3"); ("name", lit "End of the month")] []]].

(** A task: the schedule and the object it refreshes sit inside its
    [extractRefresh] element. *)
Definition task (id schedule_id object_type object_id : string) : ET.Element :=
  el "task" []
    [el "extractRefresh" [("id", lit id)]
       [el "schedule" [("id", lit schedule_id)] [];
        el object_type [("id", lit object_id)] []]].

Definition tasks_text : str :=
  ts_open ++ lit "<tasks><task><extractRefresh id='e0'><schedule id='s2'/><datasource id='d2'/></extractRefresh></task><task><extractRefresh id='e1'><schedule id='s2'/><workbook id='w2'/></extractRefresh></task><task><extractRefresh id='e2'><schedule id='s2'/><workbook id='w2'/></extractRefresh></task></tasks>" ++ ts_close.

Definition tasks_xml : ET.Element :=
  el "tsResponse" []
    [el "tasks" []
       [task "e0" "s2" "datasource" "d2"; task "e1" "s2" "workbook" "w2";
        task "e2" "s2" "workbook" "w2"]].

Definition job_text : str :=
  ts_open ++ lit "<job id='j1' mode='Asynchronous' type='RefreshExtract'/>" ++ ts_close.

Definition job_xml : ET.Element :=
  el "tsResponse" []
    [el "job" [("id", lit "j1"); ("mode", lit "Asynchronous");
               ("type", lit "RefreshExtract")] []].

(** The error envelope of a failed sign-in, and one without [detail]. *)
Definition error_text : str :=
  ts_open ++ lit "<error code='400006'><summary>Invalid...</summary><detail>Login failed</detail></error>" ++ ts_close.

Definition error_xml : ET.Element :=
  el "tsResponse" []
    [el "error" [("code", lit "400006")]
       [el_text "summary" "Invalid..."; el_text "detail" "Login failed"]].

Definition error_brief_text : str :=
  ts_open ++ lit "<error code='400006'><summary>Invalid...</summary></error>" ++ ts_close.

Definition error_brief_xml : ET.Element :=
  el "tsResponse" []
    [el "error" [("code", lit "400006")] [el_text "summary" "Invalid..."]].

(** An error envelope whose detail holds the character U+00E9. *)
Definition error_accent_text : str :=
  ts_open ++ lit "<error code='401002'><summary>Unauthorized</summary><detail>acc"
    ++ [233%N] ++ lit "s refus" ++ [233%N] ++ lit "</detail></error>" ++ ts_close.

Definition error_accent_xml : ET.Element :=
  el "tsResponse" []
    [el "error" [("code", lit "401002")]
       [el_text "summary" "Unauthorized";
        ET.Elem (t (lit "detail")) ∅
          (Some (lit "acc" ++ [233%N] ++ lit "s refus" ++ [233%N])) []]].

(** A response without any of the elements of a sign-in. *)
Definition empty_text : str := lit "<tsResponse xmlns='http://tableau.com/api'/>".
Definition empty_xml : ET.Element := el "tsResponse" [] [].

(** Task lists with something missing. *)
Definition bare_task_text : str :=
  ts_open ++ lit "<tasks><task/></tasks>" ++ ts_close.

Definition bare_task_xml : ET.Element :=
  el "tsResponse" [] [el "tasks" [] [el "task" [] []]].

Definition unscheduled_task_text : str :=
  ts_open ++ lit "<tasks><task><extractRefresh id='e1'><workbook id='w2'/></extractRefresh></task></tasks>" ++ ts_close.

Definition unscheduled_task_xml : ET.Element :=
  el "tsResponse" []
    [el "tasks" []
       [el "task" []
          [el "extractRefresh" [("id", lit "e1")]
             [el "workbook" [("id", lit "w2")] []]]]].

(** A workbook list whose first workbook has no project. *)
Definition stray_workbook_text : str :=
  ts_open ++ lit "<workbooks><workbook id='w0' name='Book1'/><workbook id='w2' name='Book1'><project id='p205'/></workbook><workbook id='w3' name='Book1'><project id='p205'/></workbook></workbooks>" ++ ts_close.

Definition stray_workbook_xml : ET.Element :=
  el "tsResponse" []
    [el "workbooks" []
       [el "workbook" [("id", lit "w0"); ("name", lit "Book1")] [];
        book "w2" "p205"; book "w3" "p205"]].

(** Lists of one name under two projects, behind an element of that name
    without a project. *)
Definition unfiled_workbook_text : str :=
  ts_open ++ lit "<workbooks><workbook id='w0' name='Book1'/><workbook id='w1' name='Book1'><project id='p1'/></workbook><workbook id='w2' name='Book1'><project id='p2'/></workbook></workbooks>" ++ ts_close.

Definition unfiled_workbook_xml : ET.Element :=
  el "tsResponse" []
    [el "workbooks" []
       [el "workbook" [("id", lit "w0"); ("name", lit "Book1")] [];
        book "w1" "p1"; book "w2" "p2"]].

Definition unfiled_datasource_text : str :=
  ts_open ++ lit "<datasources><datasource id='d0' name='Sales'/><datasource id='d1' name='Sales'><project id='p1'/></datasource><datasource id='d2' name='Sales'><project id='p2'/></datasource></datasources>" ++ ts_close.

Definition unfiled_datasource_xml : ET.Element :=
  el "tsResponse" []
    [el "datasources" []
       [el "datasource" [("id", lit "d0"); ("name", lit "Sales")] [];
        source "d1" "p1"; source "d2" "p2"]].

(** First pages with something wrong in the [pagination] element. *)
Definition untotalled_text : str :=
  ts_open ++ lit "<pagination pageNumber='1' pageSize='100'/><projects/>" ++ ts_close.

Definition untotalled_xml : ET.Element :=
  el "tsResponse" []
    [el "pagination" [("pageNumber", lit "1"); ("pageSize", lit "100")] [];
     el "projects" [] []].

Definition miscounted_text : str :=
  ts_open ++ lit "<pagination pageNumber='1' pageSize='100' totalAvailable='many'/><projects/>" ++ ts_close.

Definition miscounted_xml : ET.Element :=
  el "tsResponse" []
    [el "pagination" [("pageNumber", lit "1"); ("pageSize", lit "100");
                      ("totalAvailable", lit "many")] [];
     el "projects" [] []].

Definition documents : list (str * ET.Element) :=
  [(signin_text, signin_xml);
   (page_text 1, page_xml 1); (page_text 2, page_xml 2); (page_text 3, page_xml 3);
   (workbooks_text, workbooks_xml); (datasources_text, datasources_xml);
   (schedules_text, schedules_xml); (tasks_text, tasks_xml);
   (job_text, job_xml); (error_text, error_xml);
   (error_brief_text, error_brief_xml); (error_accent_text, error_accent_xml);
   (empty_text, empty_xml); (bare_task_text, bare_task_xml);
   (unscheduled_task_text, unscheduled_task_xml);
   (stray_workbook_text, stray_workbook_xml);
   (unfiled_workbook_text, unfiled_workbook_xml);
   (unfiled_datasource_text, unfiled_datasource_xml);
   (untotalled_text, untotalled_xml); (miscounted_text, miscounted_xml)].

Definition base : str := lit "http://localhost/api/3.4".

Definition projects_url (page : Z) : str :=
  base ++ lit "/sites/s1/projects?pageSize=100&pageNumber=" ++ str_of_int page.

Definition answers : list (Method * str * Response) :=
  [(POST, base ++ lit "/auth/signin", ok signin_text);
   (GET, projects_url 1, ok (page_text 1));
   (GET, projects_url 2, ok (page_text 2));
   (GET, projects_url 3, ok (page_text 3));
   (GET, base ++ lit "/sites/s1/users/u1/workbooks", ok workbooks_text);
   (GET, base ++ lit "/sites/s1/datasources", ok datasources_text);
   (GET, base ++ lit "/schedules", ok schedules_text);
   (GET, base ++ lit "/sites/s1/tasks/extractRefreshes", ok tasks_text);
   (POST, base ++ lit "/sites/s1/tasks/extractRefreshes/e1/runNow", ok job_text);
   (POST, base ++ lit "/auth/signout", {| status_code := 204; text := [] |})].

(** The server above under an interpreter, with some answers replaced. *)
Definition demo_under (py : Python) (replaced : list (Method * str * Response))
  : Env :=
  {| python := py;
     VERSION := lit "3.4";
     http := table_server (replaced ++ answers);
     fromstring := table_fromstring documents;
     tostring := demo_tostring;
     int_of_str := demo_int |}.

Definition demo (replaced : list (Method * str * Response)) : Env :=
  demo_under Python3 replaced.

Definition localhost : str := lit "http://localhost".

Definition demo_argv : list str :=
  [lit "refresh_extract.py"; localhost; lit "admin"; lit "admin"; lit "";
   lit "N205"; lit "workbook"; lit "Book1"; lit "End of the month"].

(** Servers and responses on which the script fails. *)
Definition tasks_url : str := base ++ lit "/sites/s1/tasks/extractRefreshes".
Definition workbooks_url : str := base ++ lit "/sites/s1/users/u1/workbooks".
Definition signin_url : str := base ++ lit "/auth/signin".

Definition refused : Response := {| status_code := 401; text := error_text |}.

Definition refused_briefly : Response :=
  {| status_code := 401; text := error_brief_text |}.

Definition refused_with_accents : Response :=
  {| status_code := 401; text := error_accent_text |}.

Definition bad_gateway : Response :=
  {| status_code := 502; text := lit "Bad Gateway" |}.


Definition signin_empty : Env := demo [(POST, signin_url, ok empty_text)].

Definition signin_refused : Env := demo [(POST, signin_url, refused_with_accents)].

Definition tasks_unscheduled : Env := demo [(GET, tasks_url, ok unscheduled_task_text)].

Definition tasks_bare : Env := demo [(GET, tasks_url, ok bare_task_text)].

Definition workbooks_stray : Env := demo [(GET, workbooks_url, ok stray_workbook_text)].



Definition projects_unpaged : Env := demo [(GET, projects_url 1, ok empty_text)].

Definition projects_untotalled : Env :=
  demo [(GET, projects_url 1, ok untotalled_text)].

Definition projects_miscounted : Env :=
  demo [(GET, projects_url 1, ok miscounted_text)].

(** The second page of the projects is down. *)
Definition projects_cut : Env :=
  demo [(GET, projects_url 2, {| status_code := 500; text := error_text |})].

(** The session of the demonstration server. *)
Definition tok : option str := Some (lit "tok").
Definition s1 : option str := Some (lit "s1").
Definition u1 : option str := Some (lit "u1").

(** * Properties *)

(** ** The codec *)

Section codec.

#[local] Open Scope N_scope.

Lemma hex_digit_ascii d : d < 16 → is_ascii (hex_digit d) = true.
Proof.
  intros Hd. unfold is_ascii, hex_digit.
  destruct (d <? 10); apply N.ltb_lt; lia.
Qed.

Lemma hex_fixed_ascii width c : forallb is_ascii (hex_fixed width c) = true.
Proof.
  revert c. induction width as [|w IH]; intros c; [done|].
  cbn [hex_fixed]. rewrite forallb_app, IH. cbn [forallb andb].
  rewrite hex_digit_ascii; [done|]. apply N.mod_lt. lia.
Qed.

Lemma backslashreplace_ascii c : forallb is_ascii (backslashreplace c) = true.
Proof.
  unfold backslashreplace.
  destruct (c <? 256); [|destruct (c <? 65536)];
    rewrite forallb_app, hex_fixed_ascii; reflexivity.
Qed.

Lemma backslashreplace_backslash c :
  ∃ kind digits, backslashreplace c = 92 :: kind :: digits
                 ∧ forallb is_ascii (kind :: digits) = true.
Proof.
  pose proof (backslashreplace_ascii c) as Hall. revert Hall.
  unfold backslashreplace.
  destruct (c <? 256); [|destruct (c <? 65536)]; cbn [lit app];
    intros Hall; eexists _, _; (split; [reflexivity|]);
    cbn [forallb] in Hall; apply andb_prop in Hall as [_ Hall]; exact Hall.
Qed.

Lemma encode_ascii_id text :
  forallb is_ascii text = true → encode_ascii_backslashreplace text = text.
Proof.
  induction text as [|c rest IH]; [done|].
  cbn [forallb encode_ascii_backslashreplace].
  intros [Hc Hrest]%andb_prop. rewrite Hc, IH by done. done.
Qed.

Lemma encode_ascii_only text :
  forallb is_ascii (encode_ascii_backslashreplace text) = true.
Proof.
  induction text as [|c rest IH]; [done|].
  cbn [encode_ascii_backslashreplace]. rewrite forallb_app, IH, andb_true_r.
  destruct (is_ascii c) eqn:Hc; [by cbn; rewrite Hc|].
  apply backslashreplace_ascii.
Qed.

Lemma encode_flat_map text :
  encode_ascii_backslashreplace text
  = flat_map (λ c, if is_ascii c then [c] else backslashreplace c) text.
Proof. induction text as [|c rest IH]; [done|]. cbn. by rewrite IH. Qed.

Lemma decode_utf8_ascii bs :
  forallb is_ascii bs = true → decode_utf8 bs = Some bs.
Proof.
  induction bs as [|b rest IH]; [done|].
  cbn [forallb]. intros [Hb Hrest]%andb_prop.
  unfold is_ascii in Hb. cbn [decode_utf8]. rewrite Hb, IH by done. done.
Qed.

Lemma encode_for_display_total text :
  _encode_for_display text = Return (encode_ascii_backslashreplace text).
Proof.
  unfold _encode_for_display.
  by rewrite decode_utf8_ascii by apply encode_ascii_only.
Qed.

Lemma hex_digit_value_hex_digit d :
  d < 16 → hex_digit_value (hex_digit d) = Some d.
Proof.
  intros Hd. unfold hex_digit_value, hex_digit.
  destruct (d <? 10) eqn:H10.
  - apply N.ltb_lt in H10.
    rewrite (proj2 (N.leb_le 48 (48 + d))) by lia.
    rewrite (proj2 (N.ltb_lt (48 + d) 58)) by lia.
    cbn [andb]. f_equal. lia.
  - apply N.ltb_ge in H10.
    rewrite (proj2 (N.ltb_ge (87 + d) 58)) by lia.
    rewrite andb_false_r.
    rewrite (proj2 (N.leb_le 97 (87 + d))) by lia.
    rewrite (proj2 (N.ltb_lt (87 + d) 103)) by lia.
    cbn [andb]. f_equal. lia.
Qed.

Lemma hex_value_from_snoc acc digits d :
  hex_value_from acc (digits ++ [d])
  = v ← hex_value_from acc digits; x ← hex_digit_value d; Some (16 * v + x).
Proof.
  revert acc. induction digits as [|d' rest IH]; intros acc; cbn.
  - by destruct (hex_digit_value d).
  - destruct (hex_digit_value d'); cbn; [apply IH|done].
Qed.

Lemma hex_value_from_fixed width acc c :
  hex_value_from acc (hex_fixed width c)
  = Some (acc * 16 ^ N.of_nat width + c mod 16 ^ N.of_nat width).
Proof.
  revert c. induction width as [|w IH]; intros c.
  - cbn. rewrite N.mod_1_r. f_equal. lia.
  - cbn [hex_fixed]. rewrite hex_value_from_snoc, IH. cbn [mbind option_bind].
    rewrite hex_digit_value_hex_digit by (apply N.mod_lt; lia).
    cbn [mbind option_bind]. f_equal.
    rewrite Nat2N.inj_succ, N.pow_succ_r'.
    rewrite (N.Div0.mod_mul_r c 16 (16 ^ N.of_nat w)). lia.
Qed.

Lemma hex_value_fixed width c :
  c < 16 ^ N.of_nat width → hex_value (hex_fixed width c) = Some c.
Proof.
  intros Hc. unfold hex_value. rewrite hex_value_from_fixed.
  rewrite N.mod_small by done. f_equal; lia.
Qed.

Lemma length_hex_fixed width c : length (hex_fixed width c) = width.
Proof.
  revert c. induction width as [|w IH]; intros c; [done|].
  cbn [hex_fixed]. rewrite length_app, IH. cbn. lia.
Qed.

Lemma backslashreplace_is_escape c :
  is_code_point c = true → is_escape c (backslashreplace c) = true.
Proof.
  unfold is_code_point. intros Hc%N.ltb_lt.
  unfold backslashreplace.
  destruct (c <? 256) eqn:H1; [|destruct (c <? 65536) eqn:H2].
  - change (lit "\x" ++ hex_fixed 2 c) with (92 :: 120 :: hex_fixed 2 c).
    cbn [is_escape]. rewrite H1, length_hex_fixed, hex_value_fixed.
    + by rewrite !bool_decide_eq_true_2.
    + by apply N.ltb_lt in H1.
  - change (lit "\u" ++ hex_fixed 4 c) with (92 :: 117 :: hex_fixed 4 c).
    cbn [is_escape]. rewrite H1, H2, length_hex_fixed, hex_value_fixed.
    + by rewrite !bool_decide_eq_true_2.
    + by apply N.ltb_lt in H2.
  - change (lit "\U" ++ hex_fixed 8 c) with (92 :: 85 :: hex_fixed 8 c).
    cbn [is_escape]. rewrite H1, H2, length_hex_fixed, hex_value_fixed.
    + by rewrite !bool_decide_eq_true_2.
    + change (16 ^ N.of_nat 8) with 4294967296. lia.
Qed.

Lemma encode_sanitizes text :
  forallb is_code_point text = true →
  sanitizes text (encode_ascii_backslashreplace text).
Proof.
  intros Hvalid.
  exists ((λ c, if is_ascii c then [c] else backslashreplace c) <$> text).
  split.
  - induction text as [|c rest IH]; [done|].
    cbn [forallb] in Hvalid. apply andb_prop in Hvalid as [_ Hrest].
    cbn [encode_ascii_backslashreplace fmap list_fmap concat].
    f_equal. apply IH, Hrest.
  - induction text as [|c rest IH]; [constructor|].
    cbn [forallb] in Hvalid. apply andb_prop in Hvalid as [Hc Hrest].
    cbn [fmap list_fmap]. constructor; [|apply IH, Hrest].
    destruct (is_ascii c); [done|]. by apply backslashreplace_is_escape.
Qed.

(** The escape of a character is determined. *)

Lemma hex_digit_value_inj d1 d2 x :
  hex_digit_value d1 = Some x → hex_digit_value d2 = Some x → d1 = d2.
Proof.
  unfold hex_digit_value. intros H1 H2.
  repeat case_match; simplify_eq;
    repeat match goal with
           | H : _ && _ = true |- _ => apply andb_prop in H as [? ?]
           | H : _ && _ = false |- _ => apply andb_false_iff in H
           end;
    rewrite ?N.leb_le, ?N.ltb_lt, ?N.leb_gt, ?N.ltb_ge in *; lia.
Qed.

Lemma hex_digit_value_bound d x : hex_digit_value d = Some x → x < 16.
Proof.
  unfold hex_digit_value. intros H.
  repeat case_match; simplify_eq;
    repeat match goal with
           | H : _ && _ = true |- _ => apply andb_prop in H as [? ?]
           end;
    rewrite ?N.leb_le, ?N.ltb_lt in *; lia.
Qed.

Lemma hex_value_from_bounds digits acc v :
  hex_value_from acc digits = Some v →
  acc * 16 ^ N.of_nat (length digits) ≤ v
  ∧ v < (acc + 1) * 16 ^ N.of_nat (length digits).
Proof.
  revert acc. induction digits as [|d rest IH]; intros acc; cbn [hex_value_from].
  - intros [= <-]. cbn. lia.
  - destruct (hex_digit_value d) as [x|] eqn:Hd; [|done]. cbn [mbind option_bind].
    intros Hv. apply IH in Hv. apply hex_digit_value_bound in Hd.
    cbn [length]. rewrite Nat2N.inj_succ, N.pow_succ_r'.
    set (P := 16 ^ N.of_nat (length rest)) in *. nia.
Qed.

Lemma hex_value_from_inj digits1 digits2 acc v :
  length digits1 = length digits2 →
  hex_value_from acc digits1 = Some v → hex_value_from acc digits2 = Some v →
  digits1 = digits2.
Proof.
  revert digits2 acc.
  induction digits1 as [|d1 rest1 IH]; intros [|d2 rest2] acc Hlen; try done.
  cbn [hex_value_from].
  destruct (hex_digit_value d1) as [x1|] eqn:Hd1; [|done].
  destruct (hex_digit_value d2) as [x2|] eqn:Hd2; [|done].
  cbn [mbind option_bind]. intros H1 H2.
  injection Hlen as Hlen.
  pose proof (hex_value_from_bounds _ _ _ H1) as B1.
  pose proof (hex_value_from_bounds _ _ _ H2) as B2.
  rewrite <- Hlen in B2.
  assert (0 < 16 ^ N.of_nat (length rest1)) as HP.
  { apply N.neq_0_lt_0, N.pow_nonzero. lia. }
  set (P := 16 ^ N.of_nat (length rest1)) in *.
  assert (x1 = x2) as <- by nia.
  f_equal; [by eapply hex_digit_value_inj|].
  by eapply IH.
Qed.

Lemma is_escape_unique c piece1 piece2 :
  is_escape c piece1 = true → is_escape c piece2 = true → piece1 = piece2.
Proof.
  destruct piece1 as [|b1 [|k1 ds1]]; [done..|].
  destruct piece2 as [|b2 [|k2 ds2]]; [done..|].
  cbn [is_escape].
  intros [[Hb1%N.eqb_eq Hv1%bool_decide_eq_true]%andb_prop H1]%andb_prop.
  intros [[Hb2%N.eqb_eq Hv2%bool_decide_eq_true]%andb_prop H2]%andb_prop.
  assert (k1 = k2 ∧ length ds1 = length ds2) as [-> Hlen].
  { destruct (c <? 256); [|destruct (c <? 65536)];
      apply andb_prop in H1 as [->%N.eqb_eq ->%bool_decide_eq_true];
      apply andb_prop in H2 as [->%N.eqb_eq ->%bool_decide_eq_true]; done. }
  subst b1 b2. do 2 f_equal.
  by eapply hex_value_from_inj.
Qed.

Lemma sanitizes_unique text out1 out2 :
  sanitizes text out1 → sanitizes text out2 → out1 = out2.
Proof.
  intros (pieces1 & -> & H1) (pieces2 & -> & H2). f_equal.
  revert pieces2 H2. induction H1 as [|c p1 text ps1 Hp1 _ IH];
    intros pieces2 H2; inversion H2 as [|? p2 ? ps2 Hp2 Hrest]; subst; [done|].
  f_equal; [|by apply IH].
  destruct (is_ascii c); [congruence|]. by eapply is_escape_unique.
Qed.

End codec.

(** C10: [_encode_for_display] returns an all-ASCII text unchanged; on any
    text it returns (it never raises) an all-ASCII text; and on any text of
    code points, which every Python string is, that text is the input with
    every ASCII character kept and every other character replaced by its
    backslash escape: [\xNN], [\uNNNN] or [\UNNNNNNNN], where the digits,
    read as a hexadecimal numeral, give the number of the character.  No
    other text is such a replacement of the input. *)
Theorem encode_for_display_ascii (text : str) :
  (forallb is_ascii text = true → _encode_for_display text = Return text)
  ∧ (∃ out,
       _encode_for_display text = Return out
       ∧ forallb is_ascii out = true
       ∧ (forallb is_code_point text = true →
          sanitizes text out
          ∧ ∀ out', sanitizes text out' → out' = out)).
Proof.
  rewrite encode_for_display_total. split.
  - intros Hascii. by rewrite encode_ascii_id.
  - eexists. split_and!; [done|apply encode_ascii_only|].
    intros Hvalid. pose proof (encode_sanitizes text Hvalid) as Hs.
    split; [exact Hs|]. intros out' Hout'. by eapply sanitizes_unique.
Qed.

Lemma encode_for_display_ascii_witness :
  _encode_for_display signin_text = Return signin_text
  ∧ _encode_for_display (lit "acc" ++ [233; 8364; 128512]%N)
    = Return (lit "acc\xe9\u20ac\U0001f600").
Proof.
  split.
  - exact (proj1 (encode_for_display_ascii signin_text) eq_refl).
  - destruct (proj2 (encode_for_display_ascii (lit "acc" ++ [233; 8364; 128512]%N)))
      as (out & Hout & _ & Hs).
    destruct (Hs eq_refl) as [_ Hunique].
    rewrite Hout. f_equal. symmetry. apply Hunique.
    exists [lit "a"; lit "c"; lit "c"; lit "\xe9"; lit "\u20ac";
            lit "\U0001f600"].
    split; [reflexivity|].
    repeat (constructor; [vm_compute; reflexivity|]). constructor.
Defined.

(** ** Ceilings *)

Lemma ceil_div_spec a b : 0 < b → (ceil_div a b - 1) * b < a ≤ ceil_div a b * b.
Proof.
  intros Hb. unfold ceil_div.
  pose proof (Z.div_mod (- a) b ltac:(lia)) as Hdm.
  pose proof (Z.mod_pos_bound (- a) b Hb) as Hm. nia.
Qed.

Lemma ceil_div_unique a b n : 0 < b → (n - 1) * b < a ≤ n * b → ceil_div a b = n.
Proof.
  intros Hb Hn. pose proof (ceil_div_spec a b Hb). nia.
Qed.

Lemma round_half_even_bounds n d :
  0 ≤ n → 0 < d →
  n / d ≤ round_half_even n d ≤ n / d + 1
  ∧ (d < 2 * (n mod d) → round_half_even n d = n / d + 1)
  ∧ (n mod d = 0 → round_half_even n d = n / d).
Proof.
  intros Hn Hd. unfold round_half_even.
  pose proof (Z.mod_pos_bound n d Hd).
  repeat case_match; rewrite ?Z.ltb_lt, ?Z.ltb_ge in *; split_and!; lia.
Qed.

Lemma round_scaled_ceil a P :
  0 ≤ a → 0 < P → (a mod 100 = 0 ∨ 64 ≤ P) →
  - ((- round_half_even (a * P) 100) / P) = ceil_div a 100.
Proof.
  intros Ha HP Hcase. symmetry. apply ceil_div_unique; [lia|].
  destruct (round_half_even_bounds (a * P) 100) as (Hb & Hup & Hex); [nia|lia|].
  set (m := round_half_even (a * P) 100) in *.
  pose proof (Z.div_mod a 100 ltac:(lia)) as Ha'.
  pose proof (Z.mod_pos_bound a 100 ltac:(lia)) as Hr.
  set (k := a / 100) in *. set (r := a mod 100) in *.
  pose proof (ceil_div_spec m P HP) as Hc. unfold ceil_div in Hc.
  set (c := - (- m / P)) in *.
  pose proof (Z.div_mod (a * P) 100 ltac:(lia)) as Hq.
  pose proof (Z.mod_pos_bound (a * P) 100 ltac:(lia)) as Hr'.
  set (q := a * P / 100) in *. set (r' := (a * P) mod 100) in *.
  destruct (decide (r = 0)) as [Hr0|Hr0].
  - assert (r' = 0 ∧ q = k * P) as [Hr'0 ->] by (split; nia).
    rewrite (Hex Hr'0) in Hc. nia.
  - destruct Hcase as [?|HP64]; [done|].
    assert (k * P < m).
    { destruct (decide (k * P < q)); [lia|].
      assert (q = k * P) as Hqk by nia.
      assert (r' = r * P) by nia.
      rewrite Hup by nia. lia. }
    assert (m ≤ (k + 1) * P) by nia.
    nia.
Qed.

Lemma quotient_log2_100 a :
  0 < a ≤ 100 * 2 ^ 47 →
  quotient_log2 a 100 ≤ 47 ∧ (quotient_log2 a 100 ≤ 46 ∨ a mod 100 = 0).
Proof.
  intros [Hpos Hle]. unfold quotient_log2.
  assert (Z.log2 a < 54) as Hlog.
  { apply Z.log2_lt_pow2; [done|]. lia. }
  change (Z.log2 100) with 6.
  destruct (decide (Z.log2 a - 6 ≤ 46)) as [Hs|Hs].
  { case_match; lia. }
  assert (Z.log2 a - 6 = 47) as -> by lia.
  unfold below_scaled. change (0 <=? 47) with true. cbv iota.
  destruct (a <? 100 * 2 ^ 47) eqn:Hlt; [lia|].
  apply Z.ltb_ge in Hlt. assert (a = 100 * 2 ^ 47) as -> by lia.
  split; [lia|]. right. reflexivity.
Qed.

Lemma max_page_of_exact total :
  0 ≤ total ≤ 100 * 2 ^ 47 →
  max_page_of Python3 total 100 = Return (ceil_div total 100).
Proof.
  intros [Hpos Hle]. unfold max_page_of, div, int_ceil, truediv.
  change (100 =? 0) with false. cbv iota.
  destruct (total =? 0) eqn:Hz.
  { apply Z.eqb_eq in Hz as ->. reflexivity. }
  apply Z.eqb_neq in Hz.
  destruct (quotient_log2_100 total) as [Hs Hcase]; [lia|].
  unfold round_quotient. rewrite (Z.abs_eq total) by lia.
  change (Z.abs 100) with 100.
  set (e := Z.max (quotient_log2 total 100 - 52) (-1074)).
  assert (e < 0) as He by lia.
  assert (total mod 100 = 0 ∨ 64 ≤ 2 ^ (- e)) as HP.
  { destruct Hcase as [Hs46|?]; [right|by left].
    change 64 with (2 ^ 6). apply Z.pow_le_mono_r; lia. }
  destruct (0 <=? e) eqn:He'; [apply Z.leb_le in He'; lia|].
  rewrite (Z.sgn_pos total) by lia. change (Z.sgn 100) with 1.
  rewrite !Z.mul_1_l.
  cbn [mbind outcome_bind mret outcome_ret]. f_equal.
  unfold math_ceil. cbn [mantissa exponent]. rewrite He'.
  apply round_scaled_ceil; [lia| |done].
  apply Z.pow_pos_nonneg; lia.
Qed.

(** ** The log *)

Section log.

Context (env : Env).

Lemma requests_of_app log1 log2 :
  requests_of (log1 ++ log2) = requests_of log1 ++ requests_of log2.
Proof. apply omap_app. Qed.


Lemma bind_return {A B} (c : M A) (k : A → M B) log log' a :
  c log = (log', Return a) → (c ≫= k) log = k a log'.
Proof. intros H. unfold mbind, M_bind. by rewrite H. Qed.

Lemma bind_raise {A B} (c : M A) (k : A → M B) log log' e :
  c log = (log', Raise e) → (c ≫= k) log = (log', Raise e).
Proof. intros H. unfold mbind, M_bind. by rewrite H. Qed.

Lemma check_status_pass response code log :
  status_code response = code →
  _check_status env response code log = (log, Return ()).
Proof.
  intros H. unfold _check_status.
  by rewrite bool_decide_eq_false_2 by (by intros ?).
Qed.

Lemma answered_inv history r expected xml :
  answered env history r expected = Some xml →
  ∃ response,
    http env history r = Some response
    ∧ status_code response = expected
    ∧ fromstring env (sanitized response) = Some xml.
Proof.
  unfold answered. destruct (http env history r) as [response|]; [|done].
  cbn. case_bool_decide; [|done]. eauto.
Qed.

(** A call that the server answers as expected: the request and the
    sanitized text are logged and the document goes on. *)
Lemma fetch_answered {B} r xml (k : ET.Element → M B) log :
  answered env (requests_of log) r 200 = Some xml →
  (server_response ← send env r;
   _check_status env server_response 200;;
   doc ← lift (_encode_for_display (text server_response));
   xml_response ← ET_fromstring env doc;
   k xml_response) log
  = k xml (log ++ exchange env (requests_of log) r).
Proof.
  intros (response & Hserver & Hstatus & Hparse)%answered_inv.
  unfold exchange. rewrite Hserver.
  erewrite bind_return; last first.
  { unfold send. by rewrite Hserver. }
  erewrite bind_return; last by apply check_status_pass.
  erewrite bind_return; last first.
  { unfold lift. by rewrite encode_for_display_total. }
  erewrite bind_return; last first.
  { unfold ET_fromstring. fold (sanitized response). by rewrite Hparse. }
  by rewrite <- app_assoc.
Qed.

(** What such a call hands to the parser is all ASCII. *)
Lemma exchange_documents_ascii history r :
  Forall (λ doc, forallb is_ascii doc = true)
    (documents_of (exchange env history r)).
Proof.
  unfold exchange. destruct (http env history r) as [response|]; cbn; [|done].
  repeat constructor. apply encode_ascii_only.
Qed.

End log.

(** ** The scans *)

Section scans.

Lemma first_match_cons {A} (p : A → bool) x l :
  first_match p (x :: l) = if p x then Some x else first_match p l.
Proof. unfold first_match. cbn. by destruct (p x). Qed.

Lemma first_match_skip {A} (p q : A → bool) l :
  existsb p l = false →
  first_match (λ x, p x || q x) l = first_match q l.
Proof.
  induction l as [|x l IH]; [done|]. cbn [existsb].
  intros [Hx Hl]%orb_false_elim. rewrite !first_match_cons, Hx. cbn.
  by rewrite IH.
Qed.

Lemma first_match_elem {A} (p : A → bool) l x :
  first_match p l = Some x → x ∈ l ∧ p x = true.
Proof.
  induction l as [|y l IH]; [done|]. rewrite first_match_cons.
  destruct (p y) eqn:Hy.
  - intros [= ->]. split; [left|done].
  - intros [? ?]%IH. split; [by right|done].
Qed.

Lemma first_match_none {A} (p : A → bool) l :
  first_match p l = None ↔ existsb p l = false.
Proof.
  induction l as [|y l IH]; [done|]. rewrite first_match_cons. cbn.
  destruct (p y); cbn; [done|]. exact IH.
Qed.

Lemma existsb_false_elem {A} (p : A → bool) l x :
  existsb p l = false → x ∈ l → p x = false.
Proof.
  intros Hl Hx. apply list_elem_of_In in Hx.
  destruct (p x) eqn:Hp; [|done].
  rewrite <- Hl. symmetry. apply existsb_exists. eauto.
Qed.


Lemma get_project_id_for_spec dest_project projects :
  get_project_id_for dest_project projects
  = match first_match (has_name dest_project) projects with
    | Some project => Return (ET.get project "id")
    | None => Raise (project_not_found dest_project)
    end.
Proof.
  induction projects as [|project rest IH]; [done|].
  rewrite first_match_cons. cbn [get_project_id_for]. unfold has_name at 1.
  by case_bool_decide.
Qed.

Lemma get_schedule_id_for_spec schedule_name schedules :
  get_schedule_id_for schedule_name schedules
  = match first_match (has_name schedule_name) schedules with
    | Some schedule => Return (ET.get schedule "id")
    | None => Raise (not_found "Schedule" schedule_name)
    end.
Proof.
  induction schedules as [|schedule rest IH]; [done|].
  rewrite first_match_cons. cbn [get_schedule_id_for]. unfold has_name at 1.
  by case_bool_decide.
Qed.

(** The workbook scan stops at the first workbook of that name that has no
    project or has that project. *)
Lemma get_workbook_id_for_spec project_id workbook_name workbooks :
  get_workbook_id_for project_id workbook_name workbooks
  = match first_match (λ w, lacks_project workbook_name w
                            || in_project project_id workbook_name w) workbooks with
    | Some workbook =>
        if lacks_project workbook_name workbook then Raise AttributeError
        else Return (ET.get workbook "id")
    | None => Raise (not_found "Workbook" workbook_name)
    end.
Proof.
  induction workbooks as [|workbook rest IH]; [done|].
  rewrite first_match_cons. cbn [get_workbook_id_for].
  change (bool_decide (ET.get workbook "name" = Some workbook_name))
    with (has_name workbook_name workbook).
  unfold lacks_project at 1, in_project.
  destruct (has_name workbook_name workbook) eqn:Hname; cbn [andb orb]; [|exact IH].
  destruct (ET.find (ET.Below (lit "project")) workbook) as [project|] eqn:Hfind;
    cbn [deref mbind outcome_bind has_id].
  - rewrite (bool_decide_eq_false_2 (Some project = None)) by done. cbn [orb].
    case_bool_decide; [|exact IH].
    unfold lacks_project. rewrite Hname, Hfind.
    by rewrite bool_decide_eq_false_2.
  - rewrite bool_decide_eq_true_2 by done. cbn [orb].
    unfold lacks_project. rewrite Hname, Hfind.
    by rewrite bool_decide_eq_true_2.
Qed.

Lemma get_datasource_id_for_spec project_id datasource_name datasources :
  get_datasource_id_for project_id datasource_name datasources
  = match first_match (λ d, lacks_project datasource_name d
                            || in_project project_id datasource_name d) datasources with
    | Some datasource =>
        if lacks_project datasource_name datasource then Raise AttributeError
        else Return (ET.get datasource "id")
    | None => Raise (not_found "Datasource" datasource_name)
    end.
Proof.
  induction datasources as [|datasource rest IH]; [done|].
  rewrite first_match_cons. cbn [get_datasource_id_for].
  change (bool_decide (ET.get datasource "name" = Some datasource_name))
    with (has_name datasource_name datasource).
  unfold lacks_project at 1, in_project.
  destruct (has_name datasource_name datasource) eqn:Hname; cbn [andb orb]; [|exact IH].
  destruct (ET.find (ET.Below (lit "project")) datasource) as [project|] eqn:Hfind;
    cbn [deref mbind outcome_bind has_id].
  - rewrite (bool_decide_eq_false_2 (Some project = None)) by done. cbn [orb].
    case_bool_decide; [|exact IH].
    unfold lacks_project. rewrite Hname, Hfind.
    by rewrite bool_decide_eq_false_2.
  - rewrite bool_decide_eq_true_2 by done. cbn [orb].
    unfold lacks_project. rewrite Hname, Hfind.
    by rewrite bool_decide_eq_true_2.
Qed.

(** The task scan stops at the first task that matches or that has the
    object but no schedule. *)
Lemma get_extract_refresh_id_for_spec schedule_id object_type object_id tasks :
  get_extract_refresh_id_for schedule_id object_type object_id tasks
  = match first_match (λ task, lacks_schedule object_type task
                               || task_matches schedule_id object_type object_id task)
            tasks with
    | Some task =>
        if lacks_schedule object_type task
           || lacks_extract_refresh schedule_id object_type object_id task
        then Raise AttributeError
        else Return (er ← ET.find (ET.Below (lit "extractRefresh")) task;
                     ET.get er "id")
    | None => Raise (extract_not_found schedule_id object_id)
    end.
Proof.
  induction tasks as [|task rest IH]; [reflexivity|].
  rewrite first_match_cons. cbn [get_extract_refresh_id_for].
  unfold lacks_schedule, lacks_extract_refresh, task_matches, has_id.
  destruct (ET.find (ET.Below object_type) task) as [o|] eqn:Ho;
    destruct (ET.find (ET.Below (lit "schedule")) task) as [s|] eqn:Hs;
    destruct (ET.find (ET.Below (lit "extractRefresh")) task) as [er|] eqn:He;
    cbn [deref mbind outcome_bind option_bind];
    repeat (case_bool_decide; cbn [andb orb]);
    rewrite ?Ho, ?Hs, ?He; cbn [option_bind];
    repeat (case_bool_decide; cbn [andb orb]);
    done || exact IH || congruence.
Qed.

End scans.

(** ** One call each *)

Section calls.

Context (env : Env).

Lemma paged_url_projects server site_id page :
  paged_url
    (server ++ format (lit "/api/{0}/sites/{1}/projects")
                 [VERSION env; py_str site_id]) 100 page
  = api env server (lit "/sites/" ++ py_str site_id ++ lit "/projects")
      ++ lit "?pageSize=100&pageNumber=" ++ str_of_int page.
Proof.
  unfold paged_url. f_equal.
  rewrite <- (app_nil_r (str_of_int page)) at 2. reflexivity.
Qed.

Lemma get_workbook_id_run server auth_token user_id site_id project_id
    workbook_name log xml :
  let call := workbooks_call env server auth_token user_id site_id in
  answered env (requests_of log) call 200 = Some xml →
  get_workbook_id env server auth_token user_id site_id project_id
    workbook_name log
  = (log ++ exchange env (requests_of log) call,
     get_workbook_id_for project_id workbook_name
       (ET.findall (ET.Below (lit "workbook")) xml)).
Proof.
  intros call Hcall. unfold get_workbook_id, requests_get.
  erewrite fetch_answered; [reflexivity|exact Hcall].
Qed.

Lemma get_datasource_id_run server auth_token site_id project_id
    datasource_name log xml :
  let call := datasources_call env server auth_token site_id in
  answered env (requests_of log) call 200 = Some xml →
  get_datasource_id env server auth_token site_id project_id
    datasource_name log
  = (log ++ exchange env (requests_of log) call,
     get_datasource_id_for project_id datasource_name
       (ET.findall (ET.Below (lit "datasource")) xml)).
Proof.
  intros call Hcall. unfold get_datasource_id, requests_get.
  erewrite fetch_answered; [reflexivity|exact Hcall].
Qed.

Lemma get_schedule_id_run server auth_token schedule_name log xml :
  let call := schedules_call env server auth_token in
  answered env (requests_of log) call 200 = Some xml →
  get_schedule_id env server auth_token schedule_name log
  = (log ++ exchange env (requests_of log) call,
     get_schedule_id_for schedule_name
       (ET.findall (ET.Below (lit "schedule")) xml)).
Proof.
  intros call Hcall. unfold get_schedule_id, requests_get.
  erewrite fetch_answered; [reflexivity|exact Hcall].
Qed.

Lemma get_extract_refresh_id_run server auth_token site_id schedule_id
    object_type object_id log xml :
  let call := tasks_call env server auth_token site_id in
  answered env (requests_of log) call 200 = Some xml →
  get_extract_refresh_id env server auth_token site_id schedule_id
    object_type object_id log
  = (log ++ exchange env (requests_of log) call,
     get_extract_refresh_id_for schedule_id object_type object_id
       (ET.findall (ET.Below (lit "task")) xml)).
Proof.
  intros call Hcall. unfold get_extract_refresh_id, requests_get.
  erewrite fetch_answered; [reflexivity|exact Hcall].
Qed.

Lemma sign_in_run server username password site log xml :
  let call := sign_in_call env server username password site in
  answered env (requests_of log) call 200 = Some xml →
  sign_in env server username password site log
  = (log ++ exchange env (requests_of log) call,
     match ET.find (ET.Child (lit "credentials")) xml,
           ET.find (ET.Below (lit "site")) xml,
           ET.find (ET.Below (lit "user")) xml with
     | Some credentials, Some site_element, Some user =>
         Return (ET.get credentials "token", ET.get site_element "id",
                 ET.get user "id")
     | _, _, _ => Raise AttributeError
     end).
Proof.
  intros call Hcall. unfold sign_in, requests_post.
  erewrite fetch_answered; [|exact Hcall].
  destruct (ET.find (ET.Child (lit "credentials")) xml);
    destruct (ET.find (ET.Below (lit "site")) xml);
    destruct (ET.find (ET.Below (lit "user")) xml); reflexivity.
Qed.

(** The pages after the first. *)
Lemma get_project_id_pages_run server auth_token site_id n :
  let call := projects_call env server auth_token site_id in
  let url := server ++ format (lit "/api/{0}/sites/{1}/projects")
                         [VERSION env; py_str site_id] in
  ∀ page log projects documents,
    paged env call (requests_of log) page n = Some documents →
    ∃ log',
      get_project_id_pages env url auth_token 100 (seqZ page (Z.of_nat n))
        projects log
      = (log', Return (projects
                       ++ flat_map (ET.findall (ET.Below (lit "project"))) documents))
      ∧ requests_of log'
        = requests_of log ++ (call <$> seqZ page (Z.of_nat n)).
Proof.
  intros call url. subst url.
  induction n as [|n IH]; intros page log projects documents.
  { intros [= <-]. exists log. cbn. by rewrite !app_nil_r. }
  cbn [paged]. intros Hpaged.
  destruct (answered env (requests_of log) (call page) 200) as [xml|] eqn:Hxml;
    [|done].
  cbn [mbind option_bind] in Hpaged.
  destruct (paged env call (requests_of log ++ [call page]) (page + 1) n)
    as [rest|] eqn:Hrest; [|done].
  injection Hpaged as <-.
  rewrite Nat2Z.inj_succ, seqZ_cons by lia.
  replace (Z.pred (Z.succ (Z.of_nat n))) with (Z.of_nat n) by lia.
  cbn [get_project_id_pages]. unfold requests_get. 
  rewrite paged_url_projects.
  pose proof Hxml as (response & Hserver & _)%answered_inv.
  erewrite fetch_answered; [|exact Hxml].
  destruct (IH (Z.succ page)
              (log ++ exchange env (requests_of log) (call page))
              (projects ++ ET.findall (ET.Below (lit "project")) xml) rest)
    as (log' & Hrun & Hlog).
  { unfold exchange. rewrite Hserver. rewrite requests_of_app. exact Hrest. }
  exists log'. split.
  - etrans; [exact Hrun|]. cbn [flat_map]. by rewrite app_assoc.
  - rewrite Hlog. unfold exchange. rewrite Hserver, requests_of_app.
    cbn [fmap list_fmap]. by rewrite <- app_assoc.
Qed.

Lemma lift_run {A} (o : Outcome A) log : lift o log = (log, o).
Proof. done. Qed.

Lemma seqZ_to_nat m len : seqZ m len = seqZ m (Z.of_nat (Z.to_nat len)).
Proof. unfold seqZ. by rewrite Nat2Z.id. Qed.

Lemma get_project_id_run server auth_token site_id dest_project log pages
    total max_page :
  let call := projects_call env server auth_token site_id in
  paged env call (requests_of log) 1 (length (pages_asked max_page)) = Some pages →
  head pages ≫= total_available env = Some total →
  max_page_of (python env) total 100 = Return max_page →
  ∃ log',
    get_project_id env server auth_token site_id dest_project log
    = (log', get_project_id_for dest_project
               (flat_map (ET.findall (ET.Below (lit "project"))) pages))
    ∧ requests_of log' = requests_of log ++ (call <$> pages_asked max_page).
Proof.
  intros call. unfold pages_asked. cbn [length]. rewrite length_seqZ.
  cbn [paged]. intros Hpaged Htotal Hmax.
  destruct (answered env (requests_of log) (call 1) 200) as [first|] eqn:Hfirst;
    [|done].
  cbn [mbind option_bind] in Hpaged.
  destruct (paged env call (requests_of log ++ [call 1]) (1 + 1)
              (Z.to_nat (max_page - 1))) as [rest|] eqn:Hrest; [|done].
  injection Hpaged as <-.
  cbn [head mbind option_bind] in Htotal. unfold total_available in Htotal.
  destruct (ET.find (ET.Child (lit "pagination")) first) as [pagination|] eqn:Hpg;
    [|done].
  cbn [mbind option_bind] in Htotal.
  destruct (ET.get pagination "totalAvailable") as [reported|] eqn:Hrep; [|done].
  cbn [mbind option_bind] in Htotal.
  pose proof Hfirst as (response & Hserver & _)%answered_inv.
  destruct (get_project_id_pages_run server auth_token site_id
              (Z.to_nat (max_page - 1)) 2
              (log ++ exchange env (requests_of log) (call 1))
              (ET.findall (ET.Below (lit "project")) first) rest)
    as (log' & Hrun & Hlog).
  { unfold exchange. rewrite Hserver, requests_of_app. exact Hrest. }
  exists log'. split.
  - unfold get_project_id. cbv beta iota zeta. unfold requests_get.
    rewrite paged_url_projects.
    erewrite fetch_answered; [|exact Hfirst].
    erewrite bind_return; [|by rewrite lift_run, Hpg].
    erewrite bind_return; [|by rewrite lift_run; unfold int; rewrite Hrep, Htotal].
    erewrite bind_return; [|by rewrite lift_run, Hmax].
    rewrite (seqZ_to_nat 2). replace (max_page + 1 - 2) with (max_page - 1) by lia.
    erewrite bind_return; [|exact Hrun]. done.
  - rewrite Hlog. unfold exchange. rewrite Hserver, requests_of_app.
    cbn [fmap list_fmap]. rewrite <- app_assoc, <- seqZ_to_nat. done.
Qed.

Lemma run_extract_refresh_task_run server auth_token site_id
    extract_refresh_id log xml :
  let call :=
    {| method := POST;
       url := api env server
                (lit "/sites/" ++ py_str site_id ++ lit "/tasks/extractRefreshes/"
                   ++ py_str extract_refresh_id ++ lit "/runNow");
       headers := x_tableau_auth auth_token;
       data := Some (tostring env (ET.Elem (lit "tsRequest") ∅ None [])) |} in
  answered env (requests_of log) call 200 = Some xml →
  run_extract_refresh_task env server auth_token site_id extract_refresh_id log
  = (log ++ exchange env (requests_of log) call,
     job ← deref (ET.find (ET.Below (lit "job")) xml);
     Return (ET.get job "id")).
Proof.
  intros call Hcall. unfold run_extract_refresh_task, requests_post.
  erewrite fetch_answered; [|exact Hcall].
  by destruct (ET.find (ET.Below (lit "job")) xml).
Qed.

End calls.

(** ** Where sign-out requests come from *)

Section quiet.

Context (env : Env) (server : str).


Lemma sign_out_calls_nil : sign_out_calls env server [] = 0%nat.
Proof. done. Qed.

Lemma sign_out_calls_parsed doc : sign_out_calls env server [Parsed doc] = 0%nat.
Proof. done. Qed.






















End quiet.




(** ** The status check *)

Lemma format_error_message code summary detail :
  format (lit "{0}: {1} - {2}") [code; summary; detail]
  = code ++ lit ": " ++ summary ++ lit " - " ++ detail.
Proof. rewrite <- (app_nil_r detail) at 2. reflexivity. Qed.

Lemma check_status_fail env response success_code log xml :
  status_code response ≠ success_code →
  fromstring env (text response) = Some xml →
  _check_status env response success_code log
  = (log ++ [Parsed (text response)],
     Raise (ApiCallError
              (match ET.find (ET.Child (lit "error")) xml with
               | Some e => default (lit "unknown") (ET.get e "code")
               | None => lit "unknown code"
               end
               ++ lit ": "
               ++ match ET.find (ET.Below (lit "summary")) xml with
                  | Some e => py_str (ET.text e)
                  | None => lit "unknown summary"
                  end
               ++ lit " - "
               ++ match ET.find (ET.Below (lit "detail")) xml with
                  | Some e => py_str (ET.text e)
                  | None => lit "unknown detail"
                  end))).
Proof.
  intros Hstatus Hxml.
  unfold _check_status. rewrite bool_decide_eq_true_2 by done.
  erewrite bind_return; last first.
  { unfold ET_fromstring. by rewrite Hxml. }
  by rewrite format_error_message.
Qed.

(** When the status code is the expected one the check returns and nothing
    is parsed; when it differs and the body parses as XML, the check raises
    [ApiCallError] with the message
    [code: summary - detail], where [code] is the [code] attribute of the
    [error] child of the root ([unknown] if the attribute is missing),
    [summary] and [detail] are the texts of the first [summary] and [detail]
    elements below the root, and [unknown code], [unknown summary] and
    [unknown detail] stand for an element that is absent. *)
Theorem check_status_error_message (env : Env) (response : Response)
    (success_code : Z) (log : list Event) :
  (status_code response = success_code →
     _check_status env response success_code log = (log, Return ()))
  ∧ (status_code response ≠ success_code →
     ∀ xml, fromstring env (text response) = Some xml →
     ∃ code summary detail,
       _check_status env response success_code log
       = (log ++ [Parsed (text response)],
          Raise (ApiCallError
                   (code ++ lit ": " ++ summary ++ lit " - " ++ detail)))
       ∧ code = match ET.find (ET.Child (lit "error")) xml with
                | Some e => default (lit "unknown") (ET.get e "code")
                | None => lit "unknown code"
                end
       ∧ summary = match ET.find (ET.Below (lit "summary")) xml with
                   | Some e => py_str (ET.text e)
                   | None => lit "unknown summary"
                   end
       ∧ detail = match ET.find (ET.Below (lit "detail")) xml with
                  | Some e => py_str (ET.text e)
                  | None => lit "unknown detail"
                  end).
Proof.
  split; [apply check_status_pass|].
  intros Hstatus xml Hxml. eexists _, _, _. split_and!; [|reflexivity..].
  by apply check_status_fail.
Qed.

Lemma check_status_error_message_witness :
  run (_check_status (demo []) refused_briefly 200)
  = ([Parsed error_brief_text],
     Raise (ApiCallError (lit "400006: Invalid... - unknown detail")))
  ∧ run (_check_status (demo []) (ok signin_text) 200) = ([], Return ()).
Proof.
  split.
  - destruct (proj2 (check_status_error_message (demo []) refused_briefly 200 [])
                ltac:(vm_compute; discriminate) error_brief_xml
                ltac:(vm_compute; reflexivity))
      as (code & summary & detail & Hrun & -> & -> & ->).
    exact Hrun.
  - exact (proj1 (check_status_error_message (demo []) (ok signin_text) 200 [])
             eq_refl).
Defined.

(** When the status code is not the expected one and the body is no XML
    document, the check stops with the error of the parser. *)
Lemma check_status_parse_error env response success_code log :
  status_code response ≠ success_code →
  fromstring env (text response) = None →
  _check_status env response success_code log
  = (log ++ [Parsed (text response)], Raise ParseError).
Proof.
  intros Hstatus Hxml.
  unfold _check_status. rewrite bool_decide_eq_true_2 by done.
  erewrite bind_raise; [reflexivity|].
  unfold ET_fromstring. by rewrite Hxml.
Qed.

(** C5 fails where the docstring of [_check_status] promises it: the check
    is to throw [ApiCallError] when the API call fails.  A gateway answers
    with the status 502 and the plain text [Bad Gateway]; 200 was expected.
    The body is no XML document, and the check stops with the parser's
    [ParseError]: no [ApiCallError] is raised and no message is formatted. *)
Theorem check_status_on_unparsable_body :
  let result := run (_check_status (demo []) bad_gateway 200) in
  status_code bad_gateway = 502
  ∧ text bad_gateway = lit "Bad Gateway"
  ∧ fromstring (demo []) (text bad_gateway) = None
  ∧ result = ([Parsed (lit "Bad Gateway")], Raise ParseError)
  ∧ (∀ msg, result.2 ≠ Raise (ApiCallError msg)).
Proof.
  set (expected := ([Parsed (lit "Bad Gateway")], Raise ParseError)
                   : list Event * Outcome ()).
  assert (run (_check_status (demo []) bad_gateway 200) = expected) as Hrun.
  { unfold run. rewrite check_status_parse_error; [reflexivity|done|reflexivity]. }
  cbv zeta. rewrite Hrun. by split_and!.
Qed.

(** ** Sign-in *)

Lemma sign_in_refused env server username password site log response xml :
  let call := sign_in_call env server username password site in
  http env (requests_of log) call = Some response →
  status_code response ≠ 200 →
  fromstring env (text response) = Some xml →
  ∃ msg,
    sign_in env server username password site log
    = (log ++ [Sent call; Parsed (text response)], Raise (ApiCallError msg)).
Proof.
  intros call Hserver Hstatus Hxml.
  assert (send env call log = (log ++ [Sent call], Return response)) as Hsend.
  { unfold send. by rewrite Hserver. }
  eexists. unfold sign_in, requests_post.
  erewrite bind_return; [|exact Hsend].
  erewrite bind_raise; [|by apply check_status_fail].
  by rewrite <- app_assoc.
Qed.

(** C6, as amended: [sign_in] POSTs the credentials envelope to
    [/auth/signin] and expects the status 200.  On another status, with a
    body that parses, it raises [ApiCallError].  On the status 200 it
    returns the [token] of the [credentials] child and the [id]s of the
    [site] and [user] elements below the root; when one of these three
    elements is missing it stops with [AttributeError], not with
    [ApiCallError]. *)
Theorem sign_in_outcome (env : Env) (server username password site : str)
    (log : list Event) (response : Response) :
  let call := sign_in_call env server username password site in
  http env (requests_of log) call = Some response →
  let result := sign_in env server username password site log in
  (status_code response ≠ 200 →
     ∀ xml, fromstring env (text response) = Some xml →
     requests_of result.1 = requests_of log ++ [call]
     ∧ ∃ msg, result.2 = Raise (ApiCallError msg))
  ∧ (status_code response = 200 →
     ∀ xml, fromstring env (sanitized response) = Some xml →
     requests_of result.1 = requests_of log ++ [call]
     ∧ result.2
       = match ET.find (ET.Child (lit "credentials")) xml,
               ET.find (ET.Below (lit "site")) xml,
               ET.find (ET.Below (lit "user")) xml with
         | Some credentials, Some site_element, Some user =>
             Return (ET.get credentials "token", ET.get site_element "id",
                     ET.get user "id")
         | _, _, _ => Raise AttributeError
         end).
Proof.
  intros call Hserver result. split.
  - intros Hstatus xml Hxml.
    destruct (sign_in_refused env server username password site log response
                xml Hserver Hstatus Hxml) as (msg & Hrun).
    subst result. rewrite Hrun. cbn [fst snd]. split; [|by exists msg].
    by rewrite requests_of_app.
  - intros Hstatus xml Hxml. subst result.
    rewrite (sign_in_run env server username password site log xml).
    + cbn [fst snd]. split; [|done].
      change (sign_in_call env server username password site) with call.
      unfold exchange. rewrite Hserver. by rewrite requests_of_app.
    + change (sign_in_call env server username password site) with call.
      unfold answered. rewrite Hserver. cbn [mbind option_bind].
      by rewrite bool_decide_eq_true_2.
Qed.

Lemma sign_in_outcome_witness :
  (run (sign_in (demo []) localhost (lit "admin") (lit "admin") (lit ""))).2
  = Return (tok, s1, u1)
  ∧ ∃ msg,
      (run (sign_in signin_refused localhost (lit "admin") (lit "admin")
              (lit ""))).2
      = Raise (ApiCallError msg).
Proof.
  split.
  - exact (proj2 (proj2 (sign_in_outcome (demo []) localhost (lit "admin")
                           (lit "admin") (lit "") [] (ok signin_text) eq_refl)
                    eq_refl signin_xml eq_refl)).
  - exact (proj2 (proj1 (sign_in_outcome signin_refused localhost (lit "admin")
                           (lit "admin") (lit "") [] refused_with_accents
                           eq_refl)
                    ltac:(vm_compute; discriminate) error_accent_xml eq_refl)).
Defined.

(** C6, as stated, fails: the server answers the sign-in with the status
    200 and a document without [credentials], [site] and [user]; [sign_in]
    stops with [AttributeError]. *)
Lemma sign_in_on_missing_elements :
  http signin_empty []
    (sign_in_call signin_empty localhost (lit "admin") (lit "admin") (lit ""))
  = Some (ok empty_text)
  ∧ fromstring signin_empty (sanitized (ok empty_text)) = Some empty_xml
  ∧ ET.find (ET.Child (lit "credentials")) empty_xml = None
  ∧ (run (sign_in signin_empty localhost (lit "admin") (lit "admin") (lit ""))).2
    = Raise AttributeError.
Proof. split_and!; vm_compute; reflexivity. Qed.

(** ** What reaches the parser *)

(** C7 fails on the error path: [sign_in] is refused with the status 401
    and an error envelope that holds the character U+00E9; [_check_status]
    hands the text to the parser as it came, while the same text on the
    success path would be handed over sanitized. *)
Theorem check_status_parses_raw_text :
  forallb is_ascii (text refused_with_accents) = false
  ∧ documents_of (run (_check_status (demo []) refused_with_accents 200)).1
    = [text refused_with_accents]
  ∧ documents_of
      (run (sign_in signin_refused localhost (lit "admin") (lit "admin")
              (lit ""))).1
    = [text refused_with_accents]
  ∧ documents_of
      (run (sign_in (demo [(POST, signin_url, ok (text refused_with_accents))])
              localhost (lit "admin") (lit "admin") (lit ""))).1
    = [sanitized refused_with_accents]
  ∧ forallb is_ascii (sanitized refused_with_accents) = true.
Proof. split_and!; vm_compute; reflexivity. Qed.

(** ** The extract-refresh task *)

(** C3, as amended: on a task list in which every task that has the
    [object_type] child has a [schedule] child, and every task that matches
    has an [extractRefresh] child, [get_extract_refresh_id] returns the id
    of the [extractRefresh] child of the first task whose schedule has the
    id [schedule_id] and whose [object_type] child exists and has the id
    [object_id]; it returns an id exactly when some task matches, and when
    none does it raises the not-found error. *)
Theorem get_extract_refresh_id_first_match (env : Env) (server : str)
    (auth_token site_id schedule_id : option str) (object_type : str)
    (object_id : option str) (log : list Event) (xml : ET.Element) :
  let tasks := ET.findall (ET.Below (lit "task")) xml in
  let matches := task_matches schedule_id object_type object_id in
  let result :=
    (get_extract_refresh_id env server auth_token site_id schedule_id
       object_type object_id log).2 in
  answered env (requests_of log) (tasks_call env server auth_token site_id) 200
  = Some xml →
  existsb (lacks_schedule object_type) tasks = false →
  existsb (lacks_extract_refresh schedule_id object_type object_id) tasks = false →
  (∀ task, first_match matches tasks = Some task →
     ∃ er, ET.find (ET.Below (lit "extractRefresh")) task = Some er
           ∧ result = Return (ET.get er "id"))
  ∧ (first_match matches tasks = None →
     result = Raise (extract_not_found schedule_id object_id))
  ∧ ((∃ id, result = Return id) ↔ existsb matches tasks = true).
Proof.
  intros tasks matches result Hxml Hschedule Her.
  assert (result
          = match first_match matches tasks with
            | Some task =>
                Return (er ← ET.find (ET.Below (lit "extractRefresh")) task;
                        ET.get er "id")
            | None => Raise (extract_not_found schedule_id object_id)
            end) as Hresult.
  { subst result. erewrite get_extract_refresh_id_run; [|exact Hxml]. cbn [snd].
    rewrite get_extract_refresh_id_for_spec.
    rewrite (first_match_skip _ _ _ Hschedule). fold tasks matches.
    destruct (first_match matches tasks) as [task|] eqn:Hfirst; [|done].
    apply first_match_elem in Hfirst as [Htask _].
    assert (lacks_schedule object_type task = false) as ->.
    { eapply existsb_false_elem; [exact Hschedule|done]. }
    assert (lacks_extract_refresh schedule_id object_type object_id task = false)
      as ->; [|done].
    eapply existsb_false_elem; [exact Her|done]. }
  split_and!.
  - intros task Hfirst. rewrite Hresult, Hfirst.
    apply first_match_elem in Hfirst as [Htask Hmatch].
    pose proof (existsb_false_elem _ _ _ Her Htask) as Hlacks.
    unfold lacks_extract_refresh in Hlacks. fold matches in Hlacks.
    rewrite Hmatch in Hlacks. cbn [andb] in Hlacks.
    apply bool_decide_eq_false_1 in Hlacks.
    destruct (ET.find (ET.Below (lit "extractRefresh")) task) as [er|]; [|done].
    by exists er.
  - intros Hfirst. by rewrite Hresult, Hfirst.
  - rewrite Hresult.
    destruct (first_match matches tasks) as [task|] eqn:Hfirst.
    + split; [|by eexists]. intros _.
      destruct (existsb matches tasks) eqn:Hex; [done|].
      apply first_match_none in Hex. congruence.
    + apply first_match_none in Hfirst. rewrite Hfirst.
      split; [by intros [? ?]|done].
Qed.

Lemma get_extract_refresh_id_first_match_witness :
  (run (get_extract_refresh_id (demo []) localhost tok s1 (Some (lit "s2"))
          (lit "workbook") (Some (lit "w2")))).2
  = Return (Some (lit "e1"))
  ∧ (run (get_extract_refresh_id (demo []) localhost tok s1 (Some (lit "s2"))
            (lit "workbook") (Some (lit "w9")))).2
    = Raise (extract_not_found (Some (lit "s2")) (Some (lit "w9"))).
Proof.
  split.
  - destruct (proj1 (get_extract_refresh_id_first_match (demo []) localhost tok
                       s1 (Some (lit "s2")) (lit "workbook") (Some (lit "w2"))
                       [] tasks_xml eq_refl eq_refl eq_refl)
                (task "e1" "s2" "workbook" "w2") eq_refl)
      as (er & Her & Hresult).
    unfold run. rewrite Hresult. vm_compute in Her. injection Her as <-.
    reflexivity.
  - exact (proj1 (proj2 (get_extract_refresh_id_first_match (demo []) localhost
                           tok s1 (Some (lit "s2")) (lit "workbook")
                           (Some (lit "w9")) [] tasks_xml eq_refl eq_refl
                           eq_refl))
             eq_refl).
Defined.

(** C3, as stated, fails: the only task has a [workbook] child with the id
    asked for and no [schedule] child, so no task satisfies the two
    conditions; the lookup stops with [AttributeError], not with the
    not-found error. *)
Lemma get_extract_refresh_id_on_unscheduled_task :
  answered tasks_unscheduled [] (tasks_call tasks_unscheduled localhost tok s1) 200
  = Some unscheduled_task_xml
  ∧ existsb (task_matches (Some (lit "s2")) (lit "workbook") (Some (lit "w2")))
      (ET.findall (ET.Below (lit "task")) unscheduled_task_xml)
    = false
  ∧ (run (get_extract_refresh_id tasks_unscheduled localhost tok s1
            (Some (lit "s2")) (lit "workbook") (Some (lit "w2")))).2
    = Raise AttributeError.
Proof. split_and!; vm_compute; reflexivity. Qed.

(** C9, as amended: the scan stops at the first task that either matches or
    has the [object_type] child and no [schedule] child.  It stops with
    [AttributeError] when that task has no [schedule] child, or matches and
    has no [extractRefresh] child; otherwise it returns the id of the
    [extractRefresh] child; when there is no such task it raises the
    not-found error.  So the lookup returns an id or raises the not-found
    error whenever every task with an [object_type] child has a [schedule]
    child and every matching task has an [extractRefresh] child; a task with
    neither an [object_type] child nor a [schedule] child is passed over. *)
Theorem get_extract_refresh_id_attribute_error (env : Env) (server : str)
    (auth_token site_id schedule_id : option str) (object_type : str)
    (object_id : option str) (log : list Event) (xml : ET.Element) :
  let tasks := ET.findall (ET.Below (lit "task")) xml in
  let matches := task_matches schedule_id object_type object_id in
  let stumbles task :=
    lacks_schedule object_type task
    || lacks_extract_refresh schedule_id object_type object_id task in
  let result :=
    (get_extract_refresh_id env server auth_token site_id schedule_id
       object_type object_id log).2 in
  answered env (requests_of log) (tasks_call env server auth_token site_id) 200
  = Some xml →
  result
  = match first_match (λ task, lacks_schedule object_type task || matches task)
            tasks with
    | Some task =>
        if stumbles task then Raise AttributeError
        else Return (er ← ET.find (ET.Below (lit "extractRefresh")) task;
                     ET.get er "id")
    | None => Raise (extract_not_found schedule_id object_id)
    end
  ∧ (existsb stumbles tasks = false →
     (∃ id, result = Return id)
     ∨ result = Raise (extract_not_found schedule_id object_id))
  ∧ (∀ task rest,
       ET.find (ET.Below object_type) task = None →
       get_extract_refresh_id_for schedule_id object_type object_id (task :: rest)
       = get_extract_refresh_id_for schedule_id object_type object_id rest).
Proof.
  intros tasks matches stumbles result Hxml.
  assert (result
          = match first_match (λ task, lacks_schedule object_type task
                                       || matches task) tasks with
            | Some task =>
                if stumbles task then Raise AttributeError
                else Return (er ← ET.find (ET.Below (lit "extractRefresh")) task;
                             ET.get er "id")
            | None => Raise (extract_not_found schedule_id object_id)
            end) as Hresult.
  { subst result. erewrite get_extract_refresh_id_run; [|exact Hxml].
    cbn [snd]. apply get_extract_refresh_id_for_spec. }
  split_and!; [exact Hresult| |].
  - intros Hnone. rewrite Hresult.
    destruct (first_match _ tasks) as [task|] eqn:Hfirst; [|by right].
    apply first_match_elem in Hfirst as [Htask _].
    rewrite (existsb_false_elem _ _ _ Hnone Htask). left. by eexists.
  - intros task rest Hobject. cbn [get_extract_refresh_id_for].
    by rewrite Hobject.
Qed.

Lemma get_extract_refresh_id_attribute_error_witness :
  (run (get_extract_refresh_id tasks_unscheduled localhost tok s1
          (Some (lit "s2")) (lit "workbook") (Some (lit "w2")))).2
  = Raise AttributeError.
Proof.
  exact (proj1 (get_extract_refresh_id_attribute_error tasks_unscheduled
                  localhost tok s1 (Some (lit "s2")) (lit "workbook")
                  (Some (lit "w2")) [] unscheduled_task_xml eq_refl)).
Defined.

(** C9, as stated, fails: the only task has no [schedule] child (and no
    [workbook] child either), so the precondition of the claim does not
    hold; the lookup does not abort, it raises the not-found error. *)
Lemma get_extract_refresh_id_on_bare_task :
  answered tasks_bare [] (tasks_call tasks_bare localhost tok s1) 200
  = Some bare_task_xml
  ∧ existsb (λ task, bool_decide
                       (ET.find (ET.Below (lit "schedule")) task = None))
      (ET.findall (ET.Below (lit "task")) bare_task_xml)
    = true
  ∧ (run (get_extract_refresh_id tasks_bare localhost tok s1
            (Some (lit "s2")) (lit "workbook") (Some (lit "w2")))).2
    = Raise (extract_not_found (Some (lit "s2")) (Some (lit "w2"))).
Proof. split_and!; vm_compute; reflexivity. Qed.

(** ** Which element a resolver returns *)

Section resolvers.

Context (env : Env) (server : str) (auth_token : option str) (log : list Event).

Lemma get_project_id_first server' site_id dest_project pages total max_page :
  paged env (projects_call env server' auth_token site_id) (requests_of log) 1
    (length (pages_asked max_page)) = Some pages →
  head pages ≫= total_available env = Some total →
  max_page_of (python env) total 100 = Return max_page →
  (get_project_id env server' auth_token site_id dest_project log).2
  = match first_match (has_name dest_project)
            (flat_map (ET.findall (ET.Below (lit "project"))) pages) with
    | Some project => Return (ET.get project "id")
    | None => Raise (project_not_found dest_project)
    end.
Proof.
  intros Hpages Htotal Hmax.
  destruct (get_project_id_run env server' auth_token site_id dest_project log
              pages total max_page Hpages Htotal Hmax) as (log' & Hrun & _).
  rewrite Hrun. apply get_project_id_for_spec.
Qed.

Lemma get_workbook_id_first user_id site_id project_id name xml :
  let workbooks := ET.findall (ET.Below (lit "workbook")) xml in
  answered env (requests_of log)
    (workbooks_call env server auth_token user_id site_id) 200 = Some xml →
  existsb (lacks_project name) workbooks = false →
  (get_workbook_id env server auth_token user_id site_id project_id name log).2
  = match first_match (in_project project_id name) workbooks with
    | Some workbook => Return (ET.get workbook "id")
    | None => Raise (not_found "Workbook" name)
    end.
Proof.
  intros workbooks Hxml Hlacks.
  erewrite get_workbook_id_run; [|exact Hxml]. cbn [snd].
  rewrite get_workbook_id_for_spec, (first_match_skip _ _ _ Hlacks).
  fold workbooks.
  destruct (first_match _ workbooks) as [workbook|] eqn:Hfirst; [|done].
  apply first_match_elem in Hfirst as [Helem _].
  by rewrite (existsb_false_elem _ _ _ Hlacks Helem).
Qed.

Lemma get_datasource_id_first site_id project_id name xml :
  let datasources := ET.findall (ET.Below (lit "datasource")) xml in
  answered env (requests_of log)
    (datasources_call env server auth_token site_id) 200 = Some xml →
  existsb (lacks_project name) datasources = false →
  (get_datasource_id env server auth_token site_id project_id name log).2
  = match first_match (in_project project_id name) datasources with
    | Some datasource => Return (ET.get datasource "id")
    | None => Raise (not_found "Datasource" name)
    end.
Proof.
  intros datasources Hxml Hlacks.
  erewrite get_datasource_id_run; [|exact Hxml]. cbn [snd].
  rewrite get_datasource_id_for_spec, (first_match_skip _ _ _ Hlacks).
  fold datasources.
  destruct (first_match _ datasources) as [datasource|] eqn:Hfirst; [|done].
  apply first_match_elem in Hfirst as [Helem _].
  by rewrite (existsb_false_elem _ _ _ Hlacks Helem).
Qed.

Lemma get_schedule_id_first name xml :
  answered env (requests_of log) (schedules_call env server auth_token) 200
  = Some xml →
  (get_schedule_id env server auth_token name log).2
  = match first_match (has_name name)
            (ET.findall (ET.Below (lit "schedule")) xml) with
    | Some schedule => Return (ET.get schedule "id")
    | None => Raise (not_found "Schedule" name)
    end.
Proof.
  intros Hxml. erewrite get_schedule_id_run; [|exact Hxml]. cbn [snd].
  apply get_schedule_id_for_spec.
Qed.

Lemma get_extract_refresh_id_first site_id schedule_id object_type object_id xml :
  let tasks := ET.findall (ET.Below (lit "task")) xml in
  answered env (requests_of log) (tasks_call env server auth_token site_id) 200
  = Some xml →
  existsb (lacks_schedule object_type) tasks = false →
  existsb (lacks_extract_refresh schedule_id object_type object_id) tasks = false →
  (get_extract_refresh_id env server auth_token site_id schedule_id object_type
     object_id log).2
  = match first_match (task_matches schedule_id object_type object_id) tasks with
    | Some task =>
        Return (er ← ET.find (ET.Below (lit "extractRefresh")) task;
                ET.get er "id")
    | None => Raise (extract_not_found schedule_id object_id)
    end.
Proof.
  intros tasks Hxml Hschedule Her.
  erewrite get_extract_refresh_id_run; [|exact Hxml]. cbn [snd].
  rewrite get_extract_refresh_id_for_spec, (first_match_skip _ _ _ Hschedule).
  fold tasks.
  destruct (first_match _ tasks) as [task|] eqn:Hfirst; [|done].
  apply first_match_elem in Hfirst as [Helem _].
  by rewrite (existsb_false_elem _ _ _ Hschedule Helem),
    (existsb_false_elem _ _ _ Her Helem).
Qed.

End resolvers.

(** C8, as amended: each resolver returns the id of the first element, in
    the order of the decoded response, that satisfies its match condition
    (and raises its not-found error when there is none).  For projects the
    order is that of the elements of page 1 followed by those of the later
    pages, in the order the pages are fetched.  For workbooks and data
    sources this holds when every element of the name asked for has a
    nested [project] element; for tasks, when every task with the
    [object_type] child has a [schedule] child and every matching task has
    an [extractRefresh] child. *)
Theorem first_match_is_returned (env : Env) (server : str)
    (auth_token : option str) (log : list Event) :
  (∀ site_id dest_project pages total max_page,
     paged env (projects_call env server auth_token site_id) (requests_of log) 1
       (length (pages_asked max_page)) = Some pages →
     head pages ≫= total_available env = Some total →
     max_page_of (python env) total 100 = Return max_page →
     (get_project_id env server auth_token site_id dest_project log).2
     = match first_match (has_name dest_project)
               (flat_map (ET.findall (ET.Below (lit "project"))) pages) with
       | Some project => Return (ET.get project "id")
       | None => Raise (project_not_found dest_project)
       end)
  ∧ (∀ user_id site_id project_id name xml,
       answered env (requests_of log)
         (workbooks_call env server auth_token user_id site_id) 200 = Some xml →
       existsb (lacks_project name) (ET.findall (ET.Below (lit "workbook")) xml)
       = false →
       (get_workbook_id env server auth_token user_id site_id project_id name
          log).2
       = match first_match (in_project project_id name)
                 (ET.findall (ET.Below (lit "workbook")) xml) with
         | Some workbook => Return (ET.get workbook "id")
         | None => Raise (not_found "Workbook" name)
         end)
  ∧ (∀ site_id project_id name xml,
       answered env (requests_of log)
         (datasources_call env server auth_token site_id) 200 = Some xml →
       existsb (lacks_project name) (ET.findall (ET.Below (lit "datasource")) xml)
       = false →
       (get_datasource_id env server auth_token site_id project_id name log).2
       = match first_match (in_project project_id name)
                 (ET.findall (ET.Below (lit "datasource")) xml) with
         | Some datasource => Return (ET.get datasource "id")
         | None => Raise (not_found "Datasource" name)
         end)
  ∧ (∀ name xml,
       answered env (requests_of log) (schedules_call env server auth_token) 200
       = Some xml →
       (get_schedule_id env server auth_token name log).2
       = match first_match (has_name name)
                 (ET.findall (ET.Below (lit "schedule")) xml) with
         | Some schedule => Return (ET.get schedule "id")
         | None => Raise (not_found "Schedule" name)
         end)
  ∧ (∀ site_id schedule_id object_type object_id xml,
       answered env (requests_of log) (tasks_call env server auth_token site_id)
         200 = Some xml →
       existsb (lacks_schedule object_type)
         (ET.findall (ET.Below (lit "task")) xml) = false →
       existsb (lacks_extract_refresh schedule_id object_type object_id)
         (ET.findall (ET.Below (lit "task")) xml) = false →
       (get_extract_refresh_id env server auth_token site_id schedule_id
          object_type object_id log).2
       = match first_match (task_matches schedule_id object_type object_id)
                 (ET.findall (ET.Below (lit "task")) xml) with
         | Some task =>
             Return (er ← ET.find (ET.Below (lit "extractRefresh")) task;
                     ET.get er "id")
         | None => Raise (extract_not_found schedule_id object_id)
         end).
Proof.
  split_and!; intros.
  - by eapply get_project_id_first.
  - by apply get_workbook_id_first.
  - by apply get_datasource_id_first.
  - by apply get_schedule_id_first.
  - by apply get_extract_refresh_id_first.
Qed.

Lemma first_match_is_returned_witness :
  (run (get_project_id (demo []) localhost tok s1 (lit "N205"))).2
  = Return (Some (lit "p205"))
  ∧ (run (get_workbook_id (demo []) localhost tok u1 s1 (Some (lit "p205"))
            (lit "Book1"))).2
    = Return (Some (lit "w2"))
  ∧ (run (get_schedule_id (demo []) localhost tok (lit "End of the month"))).2
    = Return (Some (lit "s2"))
  ∧ (run (get_extract_refresh_id (demo []) localhost tok s1 (Some (lit "s2"))
            (lit "workbook") (Some (lit "w2")))).2
    = Return (Some (lit "e1")).
Proof.
  pose proof (first_match_is_returned (demo []) localhost tok [])
    as (Hproject & Hworkbook & _ & Hschedule & Htask).
  split_and!.
  - unfold run.
    rewrite (Hproject s1 (lit "N205") [page_xml 1; page_xml 2; page_xml 3]
               250 3);
      vm_compute; reflexivity.
  - unfold run.
    rewrite (Hworkbook u1 s1 (Some (lit "p205")) (lit "Book1") workbooks_xml);
      vm_compute; reflexivity.
  - unfold run.
    rewrite (Hschedule (lit "End of the month") schedules_xml);
      vm_compute; reflexivity.
  - unfold run.
    rewrite (Htask s1 (Some (lit "s2")) (lit "workbook") (Some (lit "w2"))
               tasks_xml);
      vm_compute; reflexivity.
Defined.

(** C8, as stated, fails: two workbooks named [Book1] lie in the project
    asked for, behind a workbook of that name without a [project] element;
    the resolver stops at that one with [AttributeError] and returns the id
    of neither. *)
Lemma get_workbook_id_on_stray_workbook :
  answered workbooks_stray [] (workbooks_call workbooks_stray localhost tok u1 s1)
    200 = Some stray_workbook_xml
  ∧ List.filter (in_project (Some (lit "p205")) (lit "Book1"))
      (ET.findall (ET.Below (lit "workbook")) stray_workbook_xml)
    = [book "w2" "p205"; book "w3" "p205"]
  ∧ (run (get_workbook_id workbooks_stray localhost tok u1 s1
            (Some (lit "p205")) (lit "Book1"))).2
    = Raise AttributeError.
Proof. split_and!; vm_compute; reflexivity. Qed.

(** ** Scoping by project *)




(** ** Pages *)

Lemma paged_length env call history page n documents :
  paged env call history page n = Some documents → length documents = n.
Proof.
  revert history page documents.
  induction n as [|n IH]; intros history page documents; cbn [paged].
  { by intros [= <-]. }
  destruct (answered env history (call page) 200) as [xml|]; [|done].
  cbn [mbind option_bind].
  destruct (paged env call (history ++ [call page]) (page + 1) n) as [rest|]
    eqn:Hrest; [|done].
  intros [= <-]. cbn. f_equal. by eapply IH.
Qed.

(** Pages of [size] elements each, cut from one list, make up the list
    again when there are enough of them. *)
Lemma chunks_cover {A B} (f : B → list A) (size : nat) (pages : list B) :
  ∀ all : list A,
    (length all ≤ size * length pages)%nat →
    (∀ i page, pages !! i = Some page →
               f page = take size (drop (size * i) all)) →
    flat_map f pages = all.
Proof.
  induction pages as [|page pages IH]; intros all Hlen Hpages.
  { cbn in Hlen. destruct all; [done|]. cbn in Hlen. lia. }
  cbn [flat_map].
  rewrite (Hpages 0%nat page eq_refl), Nat.mul_0_r. cbn [drop].
  rewrite (IH (drop size all)).
  - apply take_drop.
  - rewrite length_drop. cbn [length] in Hlen. lia.
  - intros i page' Hi. rewrite (Hpages (S i) page' Hi), drop_drop.
    do 2 f_equal. lia.
Qed.

(** Under Python 3, when page 1 reports a [totalAvailable] from 0 to
    [100 * 2 ^ 47], and the server answers page 1 and every later page asked
    for with the status 200 and a text that parses, [get_project_id] takes
    [max_page = ceil(totalAvailable / 100)], asks for page 1 and then for
    the pages 2 to [max_page], in this order and nothing else, and scans the
    projects of page 1 followed by those of the later pages; when the pages
    are the consecutive runs of 100 of a list of [totalAvailable] projects,
    what it scans is that list. *)
Theorem get_project_id_reads_all_pages (env : Env) (server : str)
    (auth_token site_id : option str) (dest_project : str) (log : list Event)
    (total : Z) (pages : list ET.Element) :
  let max_page := ceil_div total 100 in
  let call := projects_call env server auth_token site_id in
  let result := get_project_id env server auth_token site_id dest_project log in
  let scanned := flat_map (ET.findall (ET.Below (lit "project"))) pages in
  python env = Python3 →
  0 ≤ total ≤ 100 * 2 ^ 47 →
  paged env call (requests_of log) 1 (length (pages_asked max_page)) = Some pages →
  head pages ≫= total_available env = Some total →
  max_page_of (python env) total 100 = Return max_page
  ∧ requests_of result.1 = requests_of log ++ (call <$> pages_asked max_page)
  ∧ result.2 = get_project_id_for dest_project scanned
  ∧ (∀ all : list ET.Element,
       Z.of_nat (length all) = total →
       (∀ i page, pages !! i = Some page →
          ET.findall (ET.Below (lit "project")) page
          = take 100 (drop (100 * i) all)) →
       scanned = all).
Proof.
  intros max_page call result scanned Hpython Htotal Hpages Hreported.
  pose proof (max_page_of_exact total Htotal) as Hmax.
  rewrite <- Hpython in Hmax.
  destruct (get_project_id_run env server auth_token site_id dest_project log
              pages total max_page Hpages Hreported Hmax) as (log' & Hrun & Hlog).
  subst result. rewrite Hrun. cbn [fst snd]. split_and!; [done..|].
  intros all Hall Hcut. apply (chunks_cover _ 100); [|exact Hcut].
  rewrite (paged_length _ _ _ _ _ _ Hpages). unfold pages_asked.
  cbn [length]. rewrite length_seqZ.
  pose proof (ceil_div_spec total 100 ltac:(lia)) as Hceil. fold max_page in Hceil.
  lia.
Qed.

Lemma get_project_id_reads_all_pages_witness :
  requests_of (run (get_project_id (demo []) localhost tok s1 (lit "N205"))).1
  = projects_call (demo []) localhost tok s1 <$> [1; 2; 3]
  ∧ (run (get_project_id (demo []) localhost tok s1 (lit "N205"))).2
    = Return (Some (lit "p205"))
  ∧ flat_map (ET.findall (ET.Below (lit "project")))
      [page_xml 1; page_xml 2; page_xml 3]
    = project_xml <$> project_ids.
Proof.
  destruct (get_project_id_reads_all_pages (demo []) localhost tok s1
              (lit "N205") [] 250 [page_xml 1; page_xml 2; page_xml 3]
              eq_refl ltac:(lia) ltac:(vm_compute; reflexivity) eq_refl)
    as (_ & Hrequests & Hresult & Hall).
  split_and!.
  - exact Hrequests.
  - unfold run. rewrite Hresult. vm_compute. reflexivity.
  - apply Hall; [reflexivity|].
    intros [|[|[|i]]] page [= <-]; vm_compute; reflexivity.
Defined.

(** Under Python 3 the ceiling is missed beyond [100 * 2 ^ 47]: the quotient
    by 100 is rounded to a float before the ceiling is taken, and the page
    that would hold the last project is not counted. *)
Lemma max_page_of_rounds_down :
  max_page_of Python3 14073748835532801 100 = Return 140737488355328
  ∧ ceil_div 14073748835532801 100 = 140737488355329.
Proof. split; vm_compute; reflexivity. Qed.

(** ** Pages under Python 2 *)

Lemma round_half_even_1 n : round_half_even n 1 = n.
Proof.
  unfold round_half_even. rewrite Z.mod_1_r, Z.div_1_r. reflexivity.
Qed.

(** [int(math.ceil(n))] of an [int] below [2 ^ 53] is [n]. *)
Lemma int_ceil_int n : 0 ≤ n < 2 ^ 53 → int_ceil (Int n) = Return n.
Proof.
  intros [Hpos Hlt]. unfold int_ceil, truediv.
  change (1 =? 0) with false. cbv iota.
  destruct (n =? 0) eqn:Hz.
  { apply Z.eqb_eq in Hz as ->. reflexivity. }
  apply Z.eqb_neq in Hz.
  unfold round_quotient. rewrite (Z.abs_eq n) by lia. change (Z.abs 1) with 1.
  assert (quotient_log2 n 1 ≤ 52) as Hs.
  { unfold quotient_log2. change (Z.log2 1) with 0.
    assert (Z.log2 n < 53) by (apply Z.log2_lt_pow2; lia).
    case_match; lia. }
  set (e := Z.max (quotient_log2 n 1 - 52) (-1074)).
  assert (e ≤ 0) as He by lia.
  rewrite (Z.sgn_pos n) by lia. change (Z.sgn 1) with 1. rewrite !Z.mul_1_l.
  destruct (0 <=? e) eqn:He'.
  - apply Z.leb_le in He'. assert (e = 0) as Hzero by lia.
    rewrite Hzero. change (2 ^ 0) with 1.
    rewrite round_half_even_1, Z.mul_1_r.
    destruct (2 ^ 1024 <=? n) eqn:Hbig.
    { apply Z.leb_le in Hbig.
      assert (2 ^ 53 < 2 ^ 1024) by (apply Z.pow_lt_mono_r; lia). lia. }
    cbn [mbind outcome_bind mret outcome_ret]. f_equal.
    unfold math_ceil. cbn [mantissa exponent].
    change (0 <=? 0) with true. cbv iota. change (2 ^ 0) with 1. lia.
  - rewrite round_half_even_1.
    cbn [mbind outcome_bind mret outcome_ret]. f_equal.
    unfold math_ceil. cbn [mantissa exponent]. rewrite He'.
    apply Z.leb_gt in He'.
    assert (0 < 2 ^ (- e)) by (apply Z.pow_pos_nonneg; lia).
    rewrite <- Z.mul_opp_l, Z.div_mul by lia. lia.
Qed.

(** Under Python 2 the quotient is floored before the ceiling is taken:
    [max_page] is the number of full pages. *)
Lemma max_page_of_python2 total :
  0 ≤ total < 100 * 2 ^ 53 →
  max_page_of Python2 total 100 = Return (total / 100)
  ∧ (total mod 100 ≠ 0 → total / 100 = ceil_div total 100 - 1).
Proof.
  intros [Hpos Hlt]. split.
  - unfold max_page_of, div. change (100 =? 0) with false. cbv iota.
    cbn [mbind outcome_bind]. apply int_ceil_int.
    split; [by apply Z.div_pos|]. apply Z.div_lt_upper_bound; lia.
  - intros Hmod. symmetry. apply Z.sub_move_r. apply ceil_div_unique; [lia|].
    pose proof (Z.div_mod total 100 ltac:(lia)).
    pose proof (Z.mod_pos_bound total 100 ltac:(lia)). lia.
Qed.

Lemma max_page_of_python2_witness :
  max_page_of Python2 250 100 = Return 2 ∧ 2 = ceil_div 250 100 - 1.
Proof.
  destruct (max_page_of_python2 250 ltac:(lia)) as [Hmax Hless].
  split; [exact Hmax|]. exact (Hless ltac:(vm_compute; discriminate)).
Defined.

(** C2 fails under Python 2.7, which the header of the script names: with
    250 projects on three pages, page 1 reports [totalAvailable = 250],
    [250 / 100] is 2 and so is [max_page], where the ceiling is 3.  Only the
    pages 1 and 2 are asked for, and the project [N205], which the server
    holds on page 3, is reported as not found. *)
Theorem get_project_id_misses_last_page :
  let env := demo_under Python2 [] in
  let result := run (get_project_id env localhost tok s1 (lit "N205")) in
  total_available env (page_xml 1) = Some 250
  ∧ max_page_of Python2 250 100 = Return 2
  ∧ ceil_div 250 100 = 3
  ∧ requests_of result.1 = projects_call env localhost tok s1 <$> [1; 2]
  ∧ result.2 = Raise (project_not_found (lit "N205"))
  ∧ answered env (requests_of result.1) (projects_call env localhost tok s1 3)
      200 = Some (page_xml 3)
  ∧ first_match (has_name (lit "N205"))
      (ET.findall (ET.Below (lit "project")) (page_xml 3))
    = Some (project_xml 205).
Proof. split_and!; vm_compute; reflexivity. Qed.

(** * Further properties *)

(** ** Round trips *)

Section round_trips.

Context (env : Env).

Lemma check_status_cases response code log :
  _check_status env response code log
  = if bool_decide (status_code response = code) then (log, Return ())
    else (log ++ [Parsed (text response)], Raise (status_error env response)).
Proof.
  case_bool_decide as Hstatus; [by apply check_status_pass|].
  unfold status_error.
  destruct (fromstring env (text response)) as [xml|] eqn:Hxml.
  - by apply check_status_fail.
  - by apply check_status_parse_error.
Qed.

(** The round trip that every call but [sign_out] makes, whatever the
    server answers. *)
Lemma fetch_cases {B} r (k : ET.Element → M B) log :
  (server_response ← send env r;
   _check_status env server_response 200;;
   doc ← lift (_encode_for_display (text server_response));
   xml_response ← ET_fromstring env doc;
   k xml_response) log
  = match round_trip env log r with
    | (log', Return xml) => k xml log'
    | (log', Raise e) => (log', Raise e)
    end.
Proof.
  unfold round_trip.
  destruct (http env (requests_of log) r) as [response|] eqn:Hserver.
  2:{ erewrite bind_raise; [done|]. unfold send. by rewrite Hserver. }
  erewrite bind_return; last first.
  { unfold send. by rewrite Hserver. }
  case_bool_decide as Hstatus.
  - erewrite bind_return; [|by apply check_status_pass].
    erewrite bind_return; last first.
    { unfold lift. by rewrite encode_for_display_total. }
    fold (sanitized response).
    destruct (fromstring env (sanitized response)) as [xml|] eqn:Hxml.
    + erewrite bind_return; last first.
      { unfold ET_fromstring. by rewrite Hxml. }
      by rewrite <- app_assoc.
    + erewrite bind_raise; last first.
      { unfold ET_fromstring. by rewrite Hxml. }
      by rewrite <- app_assoc.
  - erewrite bind_raise; last first.
    { rewrite check_status_cases. by rewrite bool_decide_eq_false_2. }
    by rewrite <- app_assoc.
Qed.

Lemma round_trip_requests log r :
  requests_of (round_trip env log r).1 = requests_of log ++ [r].
Proof.
  unfold round_trip.
  destruct (http env (requests_of log) r) as [response|];
    [case_bool_decide|]; cbn [fst]; by rewrite requests_of_app.
Qed.

Lemma round_trip_returns log r log' xml :
  round_trip env log r = (log', Return xml) →
  ∃ response, log' = log ++ [Sent r; Parsed (sanitized response)].
Proof.
  unfold round_trip.
  destruct (http env (requests_of log) r) as [response|]; [|done].
  case_bool_decide; [|done].
  destruct (fromstring env (sanitized response)); [|done].
  intros [= <- _]. by exists response.
Qed.

Lemma after_round_trip_requests {A} log r (k : ET.Element → Outcome A) :
  requests_of (after_round_trip env log r k).1 = requests_of log ++ [r].
Proof.
  unfold after_round_trip. rewrite <- round_trip_requests.
  by destruct (round_trip env log r) as [log' [xml|e]].
Qed.

Lemma get_workbook_id_cases server auth_token user_id site_id project_id name log :
  get_workbook_id env server auth_token user_id site_id project_id name log
  = after_round_trip env log
      (workbooks_call env server auth_token user_id site_id)
      (λ xml, get_workbook_id_for project_id name
                (ET.findall (ET.Below (lit "workbook")) xml)).
Proof.
  unfold get_workbook_id, requests_get, after_round_trip.
  etrans; [apply fetch_cases|]. reflexivity.
Qed.

Lemma get_datasource_id_cases server auth_token site_id project_id name log :
  get_datasource_id env server auth_token site_id project_id name log
  = after_round_trip env log (datasources_call env server auth_token site_id)
      (λ xml, get_datasource_id_for project_id name
                (ET.findall (ET.Below (lit "datasource")) xml)).
Proof.
  unfold get_datasource_id, requests_get, after_round_trip.
  etrans; [apply fetch_cases|]. reflexivity.
Qed.

Lemma get_schedule_id_cases server auth_token name log :
  get_schedule_id env server auth_token name log
  = after_round_trip env log (schedules_call env server auth_token)
      (λ xml, get_schedule_id_for name
                (ET.findall (ET.Below (lit "schedule")) xml)).
Proof.
  unfold get_schedule_id, requests_get, after_round_trip.
  etrans; [apply fetch_cases|]. reflexivity.
Qed.

Lemma get_extract_refresh_id_cases server auth_token site_id schedule_id
    object_type object_id log :
  get_extract_refresh_id env server auth_token site_id schedule_id object_type
    object_id log
  = after_round_trip env log (tasks_call env server auth_token site_id)
      (λ xml, get_extract_refresh_id_for schedule_id object_type object_id
                (ET.findall (ET.Below (lit "task")) xml)).
Proof.
  unfold get_extract_refresh_id, requests_get, after_round_trip.
  etrans; [apply fetch_cases|]. reflexivity.
Qed.

Lemma run_extract_refresh_task_cases server auth_token site_id
    extract_refresh_id log :
  run_extract_refresh_task env server auth_token site_id extract_refresh_id log
  = after_round_trip env log
      (run_now_call env server auth_token site_id extract_refresh_id)
      (λ xml, match ET.find (ET.Below (lit "job")) xml with
              | Some job => Return (ET.get job "id")
              | None => Raise AttributeError
              end).
Proof.
  unfold run_extract_refresh_task, requests_post, after_round_trip.
  etrans; [apply fetch_cases|].
  change {| method := POST; url := _; headers := _; data := _ |}
    with (run_now_call env server auth_token site_id extract_refresh_id).
  destruct (round_trip env log _) as [log' [xml|e]]; [|done].
  by destruct (ET.find (ET.Below (lit "job")) xml).
Qed.

Lemma sign_in_cases server username password site log :
  sign_in env server username password site log
  = after_round_trip env log (sign_in_call env server username password site)
      (λ xml,
         match ET.find (ET.Child (lit "credentials")) xml,
               ET.find (ET.Below (lit "site")) xml,
               ET.find (ET.Below (lit "user")) xml with
         | Some credentials, Some site_element, Some user =>
             Return (ET.get credentials "token", ET.get site_element "id",
                     ET.get user "id")
         | _, _, _ => Raise AttributeError
         end).
Proof.
  unfold sign_in, requests_post, after_round_trip.
  etrans; [apply fetch_cases|].
  change {| method := POST; url := _; headers := _; data := _ |}
    with (sign_in_call env server username password site).
  destruct (round_trip env log _) as [log' [xml|e]]; [|done].
  destruct (ET.find (ET.Child (lit "credentials")) xml);
    destruct (ET.find (ET.Below (lit "site")) xml);
    destruct (ET.find (ET.Below (lit "user")) xml); reflexivity.
Qed.

Lemma sign_out_cases server auth_token log :
  let call := sign_out_call env server auth_token in
  sign_out env server auth_token log
  = match http env (requests_of log) call with
    | None => (log ++ [Sent call], Raise RequestException)
    | Some response =>
        if bool_decide (status_code response = 204)
        then (log ++ [Sent call], Return ())
        else (log ++ [Sent call; Parsed (text response)],
              Raise (status_error env response))
    end.
Proof.
  intros call. unfold sign_out, requests_post.
  change {| method := POST; url := _; headers := _; data := _ |} with call.
  destruct (http env (requests_of log) call) as [response|] eqn:Hserver.
  2:{ erewrite bind_raise; [done|]. unfold send. by rewrite Hserver. }
  erewrite bind_return; last first.
  { unfold send. by rewrite Hserver. }
  rewrite check_status_cases. case_bool_decide; [done|].
  by rewrite <- app_assoc.
Qed.

End round_trips.

(** Every call but [sign_out] and [get_project_id] is one round trip
    followed by a scan of the document, whatever the server answers: no
    response gives [RequestException] (the error of [requests]); a status
    other than 200 gives what the status check raises on the raw text; a
    text that does not parse once sanitized gives [ParseError]; and only
    then the scan decides. *)
Theorem calls_are_round_trips (env : Env) (server : str)
    (auth_token : option str) (log : list Event) :
  (∀ username password site,
     sign_in env server username password site log
     = after_round_trip env log (sign_in_call env server username password site)
         (λ xml,
            match ET.find (ET.Child (lit "credentials")) xml,
                  ET.find (ET.Below (lit "site")) xml,
                  ET.find (ET.Below (lit "user")) xml with
            | Some credentials, Some site_element, Some user =>
                Return (ET.get credentials "token", ET.get site_element "id",
                        ET.get user "id")
            | _, _, _ => Raise AttributeError
            end))
  ∧ (∀ user_id site_id project_id name,
       get_workbook_id env server auth_token user_id site_id project_id name log
       = after_round_trip env log
           (workbooks_call env server auth_token user_id site_id)
           (λ xml, get_workbook_id_for project_id name
                     (ET.findall (ET.Below (lit "workbook")) xml)))
  ∧ (∀ site_id project_id name,
       get_datasource_id env server auth_token site_id project_id name log
       = after_round_trip env log
           (datasources_call env server auth_token site_id)
           (λ xml, get_datasource_id_for project_id name
                     (ET.findall (ET.Below (lit "datasource")) xml)))
  ∧ (∀ name,
       get_schedule_id env server auth_token name log
       = after_round_trip env log (schedules_call env server auth_token)
           (λ xml, get_schedule_id_for name
                     (ET.findall (ET.Below (lit "schedule")) xml)))
  ∧ (∀ site_id schedule_id object_type object_id,
       get_extract_refresh_id env server auth_token site_id schedule_id
         object_type object_id log
       = after_round_trip env log (tasks_call env server auth_token site_id)
           (λ xml, get_extract_refresh_id_for schedule_id object_type object_id
                     (ET.findall (ET.Below (lit "task")) xml)))
  ∧ (∀ site_id extract_refresh_id,
       run_extract_refresh_task env server auth_token site_id
         extract_refresh_id log
       = after_round_trip env log
           (run_now_call env server auth_token site_id extract_refresh_id)
           (λ xml, match ET.find (ET.Below (lit "job")) xml with
                   | Some job => Return (ET.get job "id")
                   | None => Raise AttributeError
                   end)).
Proof.
  split_and!; intros.
  - apply sign_in_cases.
  - apply get_workbook_id_cases.
  - apply get_datasource_id_cases.
  - apply get_schedule_id_cases.
  - apply get_extract_refresh_id_cases.
  - apply run_extract_refresh_task_cases.
Qed.

(** No call is tried again: sign-in, the workbook, data source, schedule
    and task lookups, the run-now call and sign-out each send exactly one
    request, whatever the server answers and however the call ends. *)
Theorem one_request_per_call (env : Env) (server : str)
    (auth_token : option str) (log : list Event) :
  (∀ username password site,
     requests_of (sign_in env server username password site log).1
     = requests_of log ++ [sign_in_call env server username password site])
  ∧ (∀ user_id site_id project_id name,
       requests_of
         (get_workbook_id env server auth_token user_id site_id project_id
            name log).1
       = requests_of log ++ [workbooks_call env server auth_token user_id site_id])
  ∧ (∀ site_id project_id name,
       requests_of
         (get_datasource_id env server auth_token site_id project_id name log).1
       = requests_of log ++ [datasources_call env server auth_token site_id])
  ∧ (∀ name,
       requests_of (get_schedule_id env server auth_token name log).1
       = requests_of log ++ [schedules_call env server auth_token])
  ∧ (∀ site_id schedule_id object_type object_id,
       requests_of
         (get_extract_refresh_id env server auth_token site_id schedule_id
            object_type object_id log).1
       = requests_of log ++ [tasks_call env server auth_token site_id])
  ∧ (∀ site_id extract_refresh_id,
       requests_of
         (run_extract_refresh_task env server auth_token site_id
            extract_refresh_id log).1
       = requests_of log
         ++ [run_now_call env server auth_token site_id extract_refresh_id])
  ∧ requests_of (sign_out env server auth_token log).1
    = requests_of log ++ [sign_out_call env server auth_token].
Proof.
  split_and!; intros.
  - rewrite sign_in_cases. apply after_round_trip_requests.
  - rewrite get_workbook_id_cases. apply after_round_trip_requests.
  - rewrite get_datasource_id_cases. apply after_round_trip_requests.
  - rewrite get_schedule_id_cases. apply after_round_trip_requests.
  - rewrite get_extract_refresh_id_cases. apply after_round_trip_requests.
  - rewrite run_extract_refresh_task_cases. apply after_round_trip_requests.
  - rewrite sign_out_cases.
    destruct (http env (requests_of log) _) as [response|];
      [case_bool_decide|]; cbn [fst]; by rewrite requests_of_app.
Qed.

(** [sign_out] sends one POST with the token and no body.  It returns
    exactly when the server answers with the status 204, and then nothing
    is parsed; any other status, 200 included, is an error: the error
    envelope in the body is read, and [ApiCallError] or the parser's error
    is raised. *)
Theorem sign_out_outcome (env : Env) (server : str) (auth_token : option str)
    (log : list Event) :
  let call := sign_out_call env server auth_token in
  let result := sign_out env server auth_token log in
  result
  = match http env (requests_of log) call with
    | None => (log ++ [Sent call], Raise RequestException)
    | Some response =>
        if bool_decide (status_code response = 204)
        then (log ++ [Sent call], Return ())
        else (log ++ [Sent call; Parsed (text response)],
              Raise (status_error env response))
    end
  ∧ (result.2 = Return ()
     ↔ ∃ response, http env (requests_of log) call = Some response
                   ∧ status_code response = 204)
  ∧ (result.2 = Return () → documents_of result.1 = documents_of log).
Proof.
  intros call result. subst result. rewrite sign_out_cases. fold call.
  split; [done|].
  destruct (http env (requests_of log) call) as [response|].
  - case_bool_decide as Hstatus; cbn [fst snd]; split.
    + split; [by eexists|done].
    + intros _. unfold documents_of. rewrite omap_app. cbn.
      by rewrite app_nil_r.
    + split; [done|]. by intros (response' & [= <-] & ?).
    + done.
  - cbn [fst snd]. split; [|done]. split; [done|]. by intros (? & ? & ?).
Qed.

(** ** What is sent, whatever the outcome *)

Section sends.

Context (env : Env) (P : Request → Prop).

Lemma sends_only_ret {A} (a : A) : sends_only P (mret a).
Proof. intros log. exists []. by rewrite app_nil_r. Qed.

Lemma sends_only_lift {A} (o : Outcome A) : sends_only P (lift o).
Proof. intros log. exists []. by rewrite app_nil_r. Qed.

Lemma sends_only_bind {A B} (c : M A) (k : A → M B) :
  sends_only P c → (∀ a, sends_only P (k a)) → sends_only P (c ≫= k).
Proof.
  intros Hc Hk log. destruct (Hc log) as (added & Hlog & Hadded).
  unfold mbind, M_bind. destruct (c log) as [log' [a|e]]; cbn in Hlog; subst.
  - destruct (Hk a (log ++ added)) as (added' & Hlog' & Hadded').
    exists (added ++ added'). rewrite Hlog', app_assoc. split; [done|].
    rewrite requests_of_app. by apply Forall_app.
  - by exists added.
Qed.

Lemma sends_only_send r : P r → sends_only P (send env r).
Proof.
  intros Hr log. exists [Sent r]. split; [done|]. by repeat constructor.
Qed.

Lemma sends_only_fromstring doc : sends_only P (ET_fromstring env doc).
Proof. intros log. exists [Parsed doc]. split; [done|]. constructor. Qed.

Lemma sends_only_check_status response code :
  sends_only P (_check_status env response code).
Proof.
  unfold _check_status. case_bool_decide; [|apply sends_only_ret].
  apply sends_only_bind; [apply sends_only_fromstring|].
  intros xml. apply sends_only_lift.
Qed.

Lemma sends_only_fetch {B} r (k : ET.Element → M B) :
  P r → (∀ xml, sends_only P (k xml)) →
  sends_only P
    (server_response ← send env r;
     _check_status env server_response 200;;
     doc ← lift (_encode_for_display (text server_response));
     xml_response ← ET_fromstring env doc;
     k xml_response).
Proof.
  intros Hr Hk.
  apply sends_only_bind; [by apply sends_only_send|]. intros response.
  apply sends_only_bind; [apply sends_only_check_status|]. intros _.
  apply sends_only_bind; [apply sends_only_lift|]. intros doc.
  apply sends_only_bind; [apply sends_only_fromstring|]. exact Hk.
Qed.

Lemma sends_only_get_project_id_pages url auth_token pages projects :
  (∀ page, P (listing_call (paged_url url 100 page) auth_token)) →
  sends_only P (get_project_id_pages env url auth_token 100 pages projects).
Proof.
  intros Hpage. revert projects.
  induction pages as [|page rest IH]; intros projects.
  { apply sends_only_ret. }
  cbn [get_project_id_pages]. unfold requests_get.
  apply sends_only_fetch; [apply Hpage|]. intros xml. apply IH.
Qed.

End sends.

Section sends_resolvers.

Context (env : Env) (server : str) (auth_token : option str)
  (P : Request → Prop).

Lemma sends_only_get_project_id site_id dest_project :
  (∀ page, P (projects_call env server auth_token site_id page)) →
  sends_only P (get_project_id env server auth_token site_id dest_project).
Proof.
  intros Hpage.
  assert (∀ page,
            P (listing_call
                 (paged_url
                    (server ++ format (lit "/api/{0}/sites/{1}/projects")
                                 [VERSION env; py_str site_id]) 100 page)
                 auth_token)) as Hpage'.
  { intros page. rewrite paged_url_projects. apply Hpage. }
  unfold get_project_id. cbv beta iota zeta. unfold requests_get.
  apply sends_only_fetch; [apply Hpage'|]. intros xml.
  repeat (apply sends_only_bind; [apply sends_only_lift|]; intros ?).
  apply sends_only_bind; [by apply sends_only_get_project_id_pages|].
  intros projects. apply sends_only_lift.
Qed.

Lemma sends_only_get_workbook_id user_id site_id project_id name :
  P (workbooks_call env server auth_token user_id site_id) →
  sends_only P
    (get_workbook_id env server auth_token user_id site_id project_id name).
Proof.
  intros Hcall. unfold get_workbook_id, requests_get.
  apply sends_only_fetch; [exact Hcall|]. intros xml. apply sends_only_lift.
Qed.

Lemma sends_only_get_datasource_id site_id project_id name :
  P (datasources_call env server auth_token site_id) →
  sends_only P
    (get_datasource_id env server auth_token site_id project_id name).
Proof.
  intros Hcall. unfold get_datasource_id, requests_get.
  apply sends_only_fetch; [exact Hcall|]. intros xml. apply sends_only_lift.
Qed.

Lemma sends_only_get_schedule_id name :
  P (schedules_call env server auth_token) →
  sends_only P (get_schedule_id env server auth_token name).
Proof.
  intros Hcall. unfold get_schedule_id, requests_get.
  apply sends_only_fetch; [exact Hcall|]. intros xml. apply sends_only_lift.
Qed.

Lemma sends_only_get_extract_refresh_id site_id schedule_id object_type
    object_id :
  P (tasks_call env server auth_token site_id) →
  sends_only P
    (get_extract_refresh_id env server auth_token site_id schedule_id
       object_type object_id).
Proof.
  intros Hcall. unfold get_extract_refresh_id, requests_get.
  apply sends_only_fetch; [exact Hcall|]. intros xml. apply sends_only_lift.
Qed.

Lemma sends_only_run_extract_refresh_task site_id extract_refresh_id :
  P (run_now_call env server auth_token site_id extract_refresh_id) →
  sends_only P
    (run_extract_refresh_task env server auth_token site_id
       extract_refresh_id).
Proof.
  intros Hcall. unfold run_extract_refresh_task, requests_post.
  apply sends_only_fetch; [exact Hcall|]. intros xml.
  apply sends_only_bind; [apply sends_only_lift|]. intros job.
  apply sends_only_ret.
Qed.

Lemma sends_only_sign_out :
  P (sign_out_call env server auth_token) →
  sends_only P (sign_out env server auth_token).
Proof.
  intros Hcall. unfold sign_out, requests_post.
  apply sends_only_bind; [by apply sends_only_send|]. intros response.
  apply sends_only_check_status.
Qed.

End sends_resolvers.

Lemma in_session_listing env server auth_token path :
  in_session env server auth_token (listing_call (api env server path) auth_token).
Proof. split; [done|by exists path]. Qed.

Lemma in_session_projects env server auth_token site_id page :
  in_session env server auth_token
    (projects_call env server auth_token site_id page).
Proof.
  split; [done|].
  exists ((lit "/sites/" ++ py_str site_id ++ lit "/projects")
          ++ lit "?pageSize=100&pageNumber=" ++ str_of_int page).
  unfold projects_call, listing_call, api. cbn [url].
  by rewrite <- !app_assoc.
Qed.

Lemma sends_only_main_steps env (P : Request → Prop) a auth_token site_id
    user_id :
  let server := arg_server a in
  (∀ page, P (projects_call env server auth_token site_id page)) →
  (arg_object_type a = lit "datasource" →
   P (datasources_call env server auth_token site_id)) →
  (arg_object_type a ≠ lit "datasource" →
   P (workbooks_call env server auth_token user_id site_id)) →
  P (schedules_call env server auth_token) →
  P (tasks_call env server auth_token site_id) →
  (∀ id, P (run_now_call env server auth_token site_id id)) →
  sends_only P (main_steps env a auth_token site_id user_id).
Proof.
  intros server Hprojects Hdatasources Hworkbooks Hschedules Htasks Hrun.
  unfold main_steps. fold server.
  apply sends_only_bind; [by apply sends_only_get_project_id|].
  intros project_id. apply sends_only_bind.
  { case_bool_decide;
      [apply sends_only_get_datasource_id|apply sends_only_get_workbook_id];
      auto. }
  intros object_id.
  apply sends_only_bind; [by apply sends_only_get_schedule_id|].
  intros schedule_id.
  apply sends_only_bind; [by apply sends_only_get_extract_refresh_id|].
  intros extract_refresh_id. by apply sends_only_run_extract_refresh_task.
Qed.

(** The five resolvers only read: every request they send, whatever the
    server answers and however they end, is a GET. *)
Theorem resolvers_send_only_get (env : Env) (server : str)
    (auth_token : option str) :
  let reads (r : Request) := method r = GET in
  (∀ site_id dest_project,
     sends_only reads (get_project_id env server auth_token site_id dest_project))
  ∧ (∀ user_id site_id project_id name,
       sends_only reads
         (get_workbook_id env server auth_token user_id site_id project_id name))
  ∧ (∀ site_id project_id name,
       sends_only reads
         (get_datasource_id env server auth_token site_id project_id name))
  ∧ (∀ name, sends_only reads (get_schedule_id env server auth_token name))
  ∧ (∀ site_id schedule_id object_type object_id,
       sends_only reads
         (get_extract_refresh_id env server auth_token site_id schedule_id
            object_type object_id)).
Proof.
  intros reads. split_and!; intros.
  - by apply sends_only_get_project_id.
  - by apply sends_only_get_workbook_id.
  - by apply sends_only_get_datasource_id.
  - by apply sends_only_get_schedule_id.
  - by apply sends_only_get_extract_refresh_id.
Qed.

(** The session of a run.  When sign-in returns a token, the sign-in
    request is the only request of the run sent without the
    [x-tableau-auth] header; every request [main] sends after it, whatever
    the server answers, carries that token in the header and goes to the
    API of the server given on the command line. *)
Theorem requests_carry_the_token (env : Env) (argv : list str)
    (log0 : list Event) (auth_token site_id user_id : option str) :
  let a := main_args argv in
  let first :=
    sign_in_call env (arg_server a) (arg_server_username a) (arg_password a)
      (arg_site a) in
  run (sign_in env (arg_server a) (arg_server_username a) (arg_password a)
         (arg_site a))
  = (log0, Return (auth_token, site_id, user_id)) →
  ∃ added,
    (run (main env argv)).1 = log0 ++ added
    ∧ requests_of log0 = [first]
    ∧ headers first = ∅
    ∧ Forall (in_session env (arg_server a) auth_token) (requests_of added).
Proof.
  intros a first Hsign_in.
  assert (sends_only (in_session env (arg_server a) auth_token)
            (main_steps env a auth_token site_id user_id
             ≫= λ _, sign_out env (arg_server a) auth_token)) as Hsends.
  { apply sends_only_bind.
    - apply sends_only_main_steps; intros;
        (apply in_session_projects || apply in_session_listing
         || (split; [done|by eexists])).
    - intros _. apply sends_only_sign_out. split; [done|by eexists]. }
  destruct (Hsends log0) as (added & Hlog & Hadded).
  exists added. split_and!; [|  |done|done].
  - unfold run, main. fold a. erewrite bind_return; [|exact Hsign_in].
    exact Hlog.
  - pose proof (after_round_trip_requests env [] first
                  (λ xml,
                     match ET.find (ET.Child (lit "credentials")) xml,
                           ET.find (ET.Below (lit "site")) xml,
                           ET.find (ET.Below (lit "user")) xml with
                     | Some credentials, Some site_element, Some user =>
                         Return (ET.get credentials "token",
                                 ET.get site_element "id", ET.get user "id")
                     | _, _, _ => Raise AttributeError
                     end)) as Hone.
    unfold first in Hone. rewrite <- sign_in_cases in Hone.
    unfold run in Hsign_in. by rewrite Hsign_in in Hone.
Qed.

Lemma requests_carry_the_token_witness :
  ∃ added,
    (run (main (demo []) demo_argv)).1
    = (run (sign_in (demo []) localhost (lit "admin") (lit "admin") (lit ""))).1
      ++ added
    ∧ Forall (in_session (demo []) localhost tok) (requests_of added).
Proof.
  destruct (requests_carry_the_token (demo []) demo_argv
              (run (sign_in (demo []) localhost (lit "admin") (lit "admin")
                      (lit ""))).1 tok s1 u1 ltac:(vm_compute; reflexivity))
    as (added & Hlog & _ & _ & Hadded).
  exists added. exact (conj Hlog Hadded).
Defined.

(** ** What reaches the parser when a call returns *)

Section parses.

Context (env : Env).

Lemma parses_ascii_lift {A} (o : Outcome A) : parses_ascii (lift o).
Proof.
  intros log log' a [= <- _]. exists []. by rewrite app_nil_r.
Qed.

Lemma parses_ascii_bind {A B} (c : M A) (k : A → M B) :
  parses_ascii c → (∀ a, parses_ascii (k a)) → parses_ascii (c ≫= k).
Proof.
  intros Hc Hk log log'' b. unfold mbind, M_bind.
  destruct (c log) as [log' [a|e]] eqn:Hrun; [|done].
  intros Hrest.
  destruct (Hc _ _ _ Hrun) as (added & -> & Hadded).
  destruct (Hk _ _ _ _ Hrest) as (added' & -> & Hadded').
  exists (added ++ added'). rewrite app_assoc. split; [done|].
  unfold documents_of. rewrite omap_app. by apply Forall_app.
Qed.

Lemma parses_ascii_after_round_trip {A} r (k : ET.Element → Outcome A) :
  parses_ascii (λ log, after_round_trip env log r k).
Proof.
  intros log log' a. unfold after_round_trip.
  destruct (round_trip env log r) as [log1 [xml|e]] eqn:Htrip; [|done].
  intros [= <- _].
  destruct (round_trip_returns env _ _ _ _ Htrip) as (response & ->).
  eexists. split; [done|]. cbn. repeat constructor. apply encode_ascii_only.
Qed.

Lemma parses_ascii_ext {A} (c c' : M A) :
  (∀ log, c log = c' log) → parses_ascii c' → parses_ascii c.
Proof. intros Heq Hc log log' a. rewrite Heq. apply Hc. Qed.

Lemma parses_ascii_fetch {B} r (k : ET.Element → M B) :
  (∀ xml, parses_ascii (k xml)) →
  parses_ascii
    (server_response ← send env r;
     _check_status env server_response 200;;
     doc ← lift (_encode_for_display (text server_response));
     xml_response ← ET_fromstring env doc;
     k xml_response).
Proof.
  intros Hk log log'' b. rewrite fetch_cases.
  destruct (round_trip env log r) as [log' [xml|e]] eqn:Htrip; [|done].
  intros Hrest.
  destruct (round_trip_returns env _ _ _ _ Htrip) as (response & ->).
  destruct (Hk _ _ _ _ Hrest) as (added' & -> & Hadded').
  exists ([Sent r; Parsed (sanitized response)] ++ added').
  rewrite app_assoc. split; [done|].
  unfold documents_of. rewrite omap_app. apply Forall_app. split; [|done].
  cbn. repeat constructor. apply encode_ascii_only.
Qed.

Lemma parses_ascii_get_project_id_pages url auth_token pages projects :
  parses_ascii (get_project_id_pages env url auth_token 100 pages projects).
Proof.
  revert projects. induction pages as [|page rest IH]; intros projects.
  { intros log log' a [= <- _]. exists []. by rewrite app_nil_r. }
  cbn [get_project_id_pages]. unfold requests_get.
  apply parses_ascii_fetch. intros xml. apply IH.
Qed.

Lemma parses_ascii_get_project_id server auth_token site_id dest_project :
  parses_ascii (get_project_id env server auth_token site_id dest_project).
Proof.
  unfold get_project_id. cbv beta iota zeta. unfold requests_get.
  apply parses_ascii_fetch. intros xml.
  repeat (apply parses_ascii_bind; [apply parses_ascii_lift|]; intros ?).
  apply parses_ascii_bind; [apply parses_ascii_get_project_id_pages|].
  intros projects. apply parses_ascii_lift.
Qed.

Lemma parses_ascii_sign_out server auth_token :
  parses_ascii (sign_out env server auth_token).
Proof.
  intros log log' a. rewrite sign_out_cases.
  destruct (http env (requests_of log) _) as [response|]; [|done].
  case_bool_decide; [|done]. intros [= <- _]. eexists. split; [done|].
  constructor.
Qed.

Lemma parses_ascii_main argv : parses_ascii (main env argv).
Proof.
  unfold main. apply parses_ascii_bind.
  { eapply parses_ascii_ext; [intros log; apply sign_in_cases|].
    apply parses_ascii_after_round_trip. }
  intros [[auth_token site_id] user_id].
  apply parses_ascii_bind; [|intros _; apply parses_ascii_sign_out].
  unfold main_steps.
  apply parses_ascii_bind; [apply parses_ascii_get_project_id|].
  intros project_id. apply parses_ascii_bind.
  { case_bool_decide.
    - eapply parses_ascii_ext; [intros log; apply get_datasource_id_cases|].
      apply parses_ascii_after_round_trip.
    - eapply parses_ascii_ext; [intros log; apply get_workbook_id_cases|].
      apply parses_ascii_after_round_trip. }
  intros object_id. apply parses_ascii_bind.
  { eapply parses_ascii_ext; [intros log; apply get_schedule_id_cases|].
    apply parses_ascii_after_round_trip. }
  intros schedule_id. apply parses_ascii_bind.
  { eapply parses_ascii_ext; [intros log; apply get_extract_refresh_id_cases|].
    apply parses_ascii_after_round_trip. }
  intros extract_refresh_id.
  eapply parses_ascii_ext; [intros log; apply run_extract_refresh_task_cases|].
  apply parses_ascii_after_round_trip.
Qed.

End parses.

(** On the success path the sanitization is complete: when a run of [main]
    returns, every document that was handed to [ET.fromstring] in the
    course of it was all ASCII. *)
Theorem main_parses_only_ascii (env : Env) (argv : list str) :
  (run (main env argv)).2 = Return () →
  Forall (λ doc, forallb is_ascii doc = true)
    (documents_of (run (main env argv)).1).
Proof.
  unfold run. destruct (main env argv []) as [log' [[]|e]] eqn:Hrun; [|done].
  intros _. destruct (parses_ascii_main env argv _ _ _ Hrun) as (added & -> & H).
  exact H.
Qed.

Lemma main_parses_only_ascii_witness :
  Forall (λ doc, forallb is_ascii doc = true)
    (documents_of (run (main (demo []) demo_argv)).1).
Proof.
  apply (main_parses_only_ascii (demo []) demo_argv).
  vm_compute. reflexivity.
Defined.

(** ** The first page of the projects *)

Section first_page.

Context (env : Env) (server : str) (auth_token site_id : option str).

(** [get_project_id] after its first page has arrived. *)
Lemma get_project_id_first_page dest_project log first :
  let call := projects_call env server auth_token site_id in
  let url := server ++ format (lit "/api/{0}/sites/{1}/projects")
                         [VERSION env; py_str site_id] in
  answered env (requests_of log) (call 1) 200 = Some first →
  get_project_id env server auth_token site_id dest_project log
  = (pagination ← lift (deref (ET.find (ET.Child (lit "pagination")) first));
     total_projects ← lift (int env (ET.get pagination "totalAvailable"));
     max_page ← lift (max_page_of (python env) total_projects 100);
     projects ← get_project_id_pages env url auth_token 100
                  (seqZ 2 (max_page + 1 - 2))
                  (ET.findall (ET.Below (lit "project")) first);
     lift (get_project_id_for dest_project projects))
      (log ++ exchange env (requests_of log) (call 1)).
Proof.
  intros call url Hfirst. unfold get_project_id. cbv beta iota zeta.
  unfold requests_get. rewrite paged_url_projects.
  erewrite fetch_answered; [|exact Hfirst]. reflexivity.
Qed.

Lemma exchange_requests history r :
  requests_of (exchange env history r) = [r].
Proof. unfold exchange. by destruct (http env history r). Qed.

End first_page.

(** When the first page of the projects lacks what the paging needs,
    [get_project_id] stops after that one request, and not with the
    not-found error: with [AttributeError] when the page has no
    [pagination] element, with [TypeError] when that element has no
    [totalAvailable] attribute, and with [ValueError] when the attribute is
    no numeral.  The projects of the page are not looked at. *)
Theorem get_project_id_on_bad_pagination (env : Env) (server : str)
    (auth_token site_id : option str) (dest_project : str) (log : list Event)
    (first : ET.Element) :
  let call := projects_call env server auth_token site_id in
  let result := get_project_id env server auth_token site_id dest_project log in
  answered env (requests_of log) (call 1) 200 = Some first →
  total_available env first = None →
  requests_of result.1 = requests_of log ++ [call 1]
  ∧ result.2
    = match ET.find (ET.Child (lit "pagination")) first with
      | None => Raise AttributeError
      | Some pagination =>
          match ET.get pagination "totalAvailable" with
          | None => Raise TypeError
          | Some _ => Raise ValueError
          end
      end.
Proof.
  intros call result Hfirst Htotal. subst result.
  rewrite (get_project_id_first_page env server auth_token site_id
             dest_project log first Hfirst).
  fold call. unfold total_available in Htotal.
  destruct (ET.find (ET.Child (lit "pagination")) first) as [pagination|].
  2:{ erewrite bind_raise; [|reflexivity]. cbn [fst snd].
      by rewrite requests_of_app, exchange_requests. }
  cbn [mbind option_bind] in Htotal.
  erewrite bind_return; [|reflexivity].
  unfold int.
  destruct (ET.get pagination "totalAvailable") as [reported|].
  2:{ erewrite bind_raise; [|reflexivity]. cbn [fst snd].
      by rewrite requests_of_app, exchange_requests. }
  cbn [mbind option_bind] in Htotal. rewrite Htotal.
  erewrite bind_raise; [|reflexivity]. cbn [fst snd].
  by rewrite requests_of_app, exchange_requests.
Qed.

Lemma get_project_id_on_bad_pagination_witness :
  (run (get_project_id projects_unpaged localhost tok s1 (lit "N1"))).2
  = Raise AttributeError
  ∧ (run (get_project_id projects_untotalled localhost tok s1 (lit "N1"))).2
    = Raise TypeError
  ∧ (run (get_project_id projects_miscounted localhost tok s1 (lit "N1"))).2
    = Raise ValueError.
Proof.
  split_and!.
  - exact (proj2 (get_project_id_on_bad_pagination projects_unpaged localhost
                    tok s1 (lit "N1") [] empty_xml eq_refl eq_refl)).
  - exact (proj2 (get_project_id_on_bad_pagination projects_untotalled localhost
                    tok s1 (lit "N1") [] untotalled_xml eq_refl eq_refl)).
  - exact (proj2 (get_project_id_on_bad_pagination projects_miscounted localhost
                    tok s1 (lit "N1") [] miscounted_xml eq_refl eq_refl)).
Defined.

(** All pages are fetched before any project is looked at: when the first
    page announces a second one and the server answers the request for it
    with another status than 200, [get_project_id] stops after these two
    requests with the error of the status check, also when the project
    asked for is on the first page. *)
Theorem get_project_id_on_failing_page (env : Env) (server : str)
    (auth_token site_id : option str) (dest_project : str) (log : list Event)
    (first : ET.Element) (total max_page : Z) (response : Response) :
  let call := projects_call env server auth_token site_id in
  let result := get_project_id env server auth_token site_id dest_project log in
  answered env (requests_of log) (call 1) 200 = Some first →
  total_available env first = Some total →
  max_page_of (python env) total 100 = Return max_page →
  2 ≤ max_page →
  http env (requests_of log ++ [call 1]) (call 2) = Some response →
  status_code response ≠ 200 →
  requests_of result.1 = requests_of log ++ [call 1; call 2]
  ∧ result.2 = Raise (status_error env response).
Proof.
  intros call result Hfirst Htotal Hmax Hpages Hserver Hstatus. subst result.
  rewrite (get_project_id_first_page env server auth_token site_id
             dest_project log first Hfirst).
  fold call. unfold total_available in Htotal.
  destruct (ET.find (ET.Child (lit "pagination")) first) as [pagination|];
    [|done].
  cbn [mbind option_bind] in Htotal.
  erewrite bind_return; [|reflexivity].
  destruct (ET.get pagination "totalAvailable") as [reported|] eqn:Hreported;
    [|done].
  cbn [mbind option_bind] in Htotal.
  erewrite bind_return; [|by rewrite lift_run; unfold int; rewrite Htotal].
  erewrite bind_return; [|by rewrite lift_run, Hmax].
  rewrite seqZ_cons by lia.
  cbn [get_project_id_pages]. unfold requests_get.
  rewrite paged_url_projects. fold (call 2).
  change {| method := GET; url := _; headers := _; data := _ |} with (call 2).
  set (log1 := log ++ exchange env (requests_of log) (call 1)).
  assert (requests_of log1 = requests_of log ++ [call 1]) as Hlog1.
  { unfold log1. by rewrite requests_of_app, exchange_requests. }
  rewrite (bind_raise _ _ log1 (log1 ++ [Sent (call 2); Parsed (text response)])
             (status_error env response)).
  - cbn [fst snd]. split; [|done].
    rewrite requests_of_app, Hlog1, <- app_assoc. done.
  - rewrite fetch_cases. unfold round_trip. rewrite Hlog1, Hserver.
    by rewrite bool_decide_eq_false_2.
Qed.

Lemma get_project_id_on_failing_page_witness :
  first_match (has_name (lit "N1"))
    (ET.findall (ET.Below (lit "project")) (page_xml 1))
  = Some (project_xml 1)
  ∧ requests_of (run (get_project_id projects_cut localhost tok s1 (lit "N1"))).1
    = projects_call projects_cut localhost tok s1 <$> [1; 2]
  ∧ (run (get_project_id projects_cut localhost tok s1 (lit "N1"))).2
    = Raise (ApiCallError (lit "400006: Invalid... - Login failed")).
Proof.
  destruct (get_project_id_on_failing_page projects_cut localhost tok s1
              (lit "N1") [] (page_xml 1) 250 3
              {| status_code := 500; text := error_text |}
              eq_refl eq_refl eq_refl ltac:(lia) eq_refl
              ltac:(vm_compute; discriminate))
    as [Hrequests Hresult].
  split_and!.
  - vm_compute. reflexivity.
  - exact Hrequests.
  - unfold run. rewrite Hresult. vm_compute. reflexivity.
Defined.

(** ** The command line *)

(** [main] does not stop on a wrong number of arguments: with any command
    line that has not exactly eight arguments after the name of the script
    it runs against [http://localhost] as [admin] with the password
    [admin], on the default site, for the workbook [Book1] of the project
    [Default] and the schedule [End of the month]. *)
Theorem main_uses_defaults (env : Env) (argv : list str) :
  length argv ≠ 9%nat → main env argv = main env default_argv.
Proof.
  intros Hlength. unfold main.
  assert (main_args argv = main_args default_argv) as ->; [|done].
  do 10 (destruct argv as [|? argv]; try done).
Qed.

Lemma main_uses_defaults_witness :
  main (demo []) [lit "refresh_extract.py"; lit "https://tableau.example"]
  = main (demo []) default_argv.
Proof.
  apply main_uses_defaults. cbn. lia.
Defined.

(** The second listing of a run.  Once the project is resolved, [main]
    asks for the data sources of the site when the object type is exactly
    [datasource], and for the workbooks of the user for every other object
    type, whatever it is. *)
Theorem main_steps_object_listing (env : Env) (a : Args)
    (auth_token site_id user_id project_id : option str)
    (log log1 : list Event) :
  get_project_id env (arg_server a) auth_token site_id (arg_project_name a) log
  = (log1, Return project_id) →
  ∃ later,
    requests_of (main_steps env a auth_token site_id user_id log).1
    = requests_of log1 ++ object_call env a auth_token site_id user_id :: later.
Proof.
  intros Hproject. unfold main_steps.
  erewrite bind_return; [|exact Hproject].
  set (rest := λ object_id : option str, _).
  assert (∀ object_id, sends_only (λ _, True) (rest object_id)) as Hrest.
  { intros object_id. unfold rest.
    apply sends_only_bind; [by apply sends_only_get_schedule_id|]. intros ?.
    apply sends_only_bind; [by apply sends_only_get_extract_refresh_id|].
    intros ?. by apply sends_only_run_extract_refresh_task. }
  set (lookup := if bool_decide (arg_object_type a = lit "datasource")
                 then _ else _).
  assert (∃ k, ∀ l,
            lookup l
            = after_round_trip env l
                (object_call env a auth_token site_id user_id) k) as [k Hlookup].
  { unfold lookup, object_call. case_bool_decide.
    - eexists. intros l. apply get_datasource_id_cases.
    - eexists. intros l. apply get_workbook_id_cases. }
  pose proof (after_round_trip_requests env log1
                (object_call env a auth_token site_id user_id) k) as Hsent.
  rewrite <- Hlookup in Hsent.
  unfold mbind at 1, M_bind.
  destruct (lookup log1) as [log2 [object_id|e]]; cbn [fst] in Hsent.
  - destruct (Hrest object_id log2) as (added & -> & _).
    exists (requests_of added). by rewrite requests_of_app, Hsent, <- app_assoc.
  - exists []. exact Hsent.
Qed.

Lemma main_steps_object_listing_witness :
  ∃ later,
    requests_of
      (main_steps (demo []) (main_args demo_argv) tok s1 u1 []).1
    = (projects_call (demo []) localhost tok s1 <$> [1; 2; 3])
      ++ workbooks_call (demo []) localhost tok u1 s1 :: later.
Proof.
  destruct (main_steps_object_listing (demo []) (main_args demo_argv) tok s1
              u1 (Some (lit "p205")) []
              (get_project_id (demo []) localhost tok s1 (lit "N205") []).1
              ltac:(vm_compute; reflexivity)) as [later Hlater].
  exists later. etrans; [exact Hlater|]. f_equal; vm_compute; reflexivity.
Defined.

(** ** More on the codec *)

(** Sanitizing twice is sanitizing once; the sanitized text of a
    concatenation is the concatenation of the sanitized texts; and the
    sanitization cannot be undone: a character and the text of its escape
    come out the same. *)
Theorem encode_for_display_idempotent (text : str) :
  (out ← _encode_for_display text; _encode_for_display out)
  = _encode_for_display text
  ∧ (∀ more,
       _encode_for_display (text ++ more)
       = (out ← _encode_for_display text;
          out' ← _encode_for_display more;
          Return (out ++ out')))
  ∧ _encode_for_display [233%N] = _encode_for_display (lit "\xe9").
Proof.
  rewrite !encode_for_display_total. cbn [mbind outcome_bind].
  split_and!.
  - rewrite encode_for_display_total. f_equal.
    apply encode_ascii_id, encode_ascii_only.
  - intros more. rewrite !encode_for_display_total. cbn [mbind outcome_bind].
    f_equal. rewrite !encode_flat_map. apply flat_map_app.
  - reflexivity.
Qed.
